(** * QueryPlay: the session workspace of [app.py]

    A shallow embedding of the data path of [app.py]: the two identifier
    sanitizers, [load_data_to_db], the upload loop, the schema view, the
    "Clear Database" handler and the query block, followed by the
    properties of the specification that concern them.

    Python strings are sequences of Unicode code points; a code point is
    an [N].  pandas, sqlite3 and the Unicode character database are
    libraries the script calls: what the script fixes about them (the
    [if_exists='replace'] argument, the [try]/[except] handlers) is
    modelled, what it does not fix (parsing, query evaluation, the
    classification of code points above U+00FF) is a [Variable] of the
    section. *)

From Stdlib Require Import String Ascii List NArith Bool Lia.
Import ListNotations.

Local Open Scope N_scope.
Local Open Scope list_scope.

(* ================================================================== *)
(** * Python strings *)
(* ================================================================== *)

(** A character is its code point, a [str] the sequence of them. *)
Definition char : Type := N.
Definition str : Type := list char.

(** A literal of the development, read as Latin-1 code points. *)
Definition py (s : string) : str :=
  map N_of_ascii (list_ascii_of_string s).

Definition char_eqb (a b : char) : bool := N.eqb a b.

Fixpoint str_eqb (a b : str) : bool :=
  match a, b with
  | [], [] => true
  | x :: a', y :: b' => char_eqb x y && str_eqb a' b'
  | _, _ => false
  end.

(** Truth value of a string in a condition: [if t_name:]. *)
Definition truthy (s : str) : bool :=
  match s with
  | [] => false
  | _ :: _ => true
  end.

Definition between (lo hi c : char) : bool := (lo <=? c) && (c <=? hi).

(** The characters named in the script. *)
Definition SPACE : char := 32.
Definition LPAREN : char := 40.
Definition RPAREN : char := 41.
Definition HYPHEN : char := 45.
Definition PERIOD : char := 46.
Definition SLASH : char := 47.
Definition UNDERSCORE : char := 95.

(** [str.isspace] of one character: the white space of the Unicode
    character database (general category Zs, bidirectional classes WS, B
    and S), which is what [str.strip()] removes. *)
Definition isspace (c : char) : bool :=
  between 9 13 c || between 28 32 c || (c =? 133) || (c =? 160)
  || (c =? 5760) || between 8192 8202 c || (c =? 8232) || (c =? 8233)
  || (c =? 8239) || (c =? 8287) || (c =? 12288).

(** [str.isalnum] of one character, on U+0000..U+00FF: the ASCII digits
    and letters, and in the Latin-1 supplement the letters, the
    superscript digits and the vulgar fractions. *)
Definition latin1_isalnum (c : char) : bool :=
  between 48 57 c || between 65 90 c || between 97 122 c
  || (c =? 170) || (c =? 178) || (c =? 179) || (c =? 181) || (c =? 185)
  || (c =? 186) || between 188 190 c || between 192 214 c
  || between 216 246 c || between 248 255 c.

(** The characters of [[A-Za-z0-9_]]. *)
Definition ascii_word_char (c : char) : bool :=
  between 48 57 c || between 65 90 c || between 97 122 c
  || (c =? UNDERSCORE).

Fixpoint dropwhile (p : char -> bool) (s : str) : str :=
  match s with
  | [] => []
  | c :: s' => if p c then dropwhile p s' else s
  end.

(** [s.lstrip()], [s.rstrip()], [s.strip()]. *)
Definition lstrip (s : str) : str := dropwhile isspace s.
Definition rstrip (s : str) : str := rev (dropwhile isspace (rev s)).
Definition strip (s : str) : str := rstrip (lstrip s).

(** [s.replace(old, new)] for a one-character [old], which is how the
    script calls it: every occurrence of [old] becomes [new]. *)
Definition replace (old : char) (new : str) (s : str) : str :=
  flat_map (fun c => if char_eqb c old then new else [c]) s.

(** [s.split(sep)] for a one-character [sep]: the pieces between the
    separators, in order. *)
Fixpoint split (sep : char) (s : str) : list str :=
  match s with
  | [] => [[]]
  | c :: s' =>
      if char_eqb c sep then [] :: split sep s'
      else match split sep s' with
           | [] => [[c]]
           | w :: ws => (c :: w) :: ws
           end
  end.

(** [[c for c in s if p(c)]]: a list of one-character strings. *)
Definition comprehension (p : char -> bool) (s : str) : list str :=
  map (fun c => [c]) (filter p s).

(** [sep.join(parts)] for the empty [sep]. *)
Definition join (parts : list str) : str := concat parts.

(* ================================================================== *)
(** * Exceptions *)
(* ================================================================== *)

(** A computation that may raise an [Exception]; [inl] carries [str(e)]. *)
Definition Exc (A : Type) : Type := (str + A)%type.

Definition raise {A : Type} (e : str) : Exc A := inl e.
Definition ret {A : Type} (a : A) : Exc A := inr a.

(** [xs[0]]: [IndexError] on the empty list. *)
Definition index0 {A : Type} (xs : list A) : Exc A :=
  match xs with
  | [] => raise (py "list index out of range")
  | x :: _ => ret x
  end.

(* ================================================================== *)
(** * The script *)
(* ================================================================== *)

Section QueryPlay.

Set Default Proof Using "Type".

(** What pandas holds in a frame besides the labels: the cell values
    and the inferred type of a column. *)
Variable value : Type.
Variable dtype : Type.

(** [str.isalnum] above U+00FF, as the Unicode character database of
    the interpreter has it. *)
Variable ucd_isalnum : char -> bool.

Definition isalnum (c : char) : bool :=
  if c <? 256 then latin1_isalnum c else ucd_isalnum c.

(** A [pandas.DataFrame] read from a file with a header row: the
    column labels (strings, in file order), the column types and the
    rows. *)
Record DataFrame : Type := {
  columns : list str;
  dtypes : list dtype;
  rows : list (list value)
}.

(** What [st.file_uploader] hands over for one file. *)
Record UploadedFile : Type := {
  name : str;
  content : list Byte.byte
}.

(** The tables of the in-memory SQLite database behind [conn], as
    [sqlite_master] lists them: in creation order. *)
Definition Database : Type := list (str * DataFrame).

(** [pd.read_csv(uploaded_file)]. *)
Variable read_csv : list Byte.byte -> Exc DataFrame.

(** The refusal of SQLite to create or fill a table ([str(e)] of the
    exception), [None] when it accepts. *)
Variable engine_rejects : str -> DataFrame -> Database -> option str.

(** Where a refused [to_sql] stops: pandas checks the names before it
    touches the database, SQLite may refuse [CREATE TABLE] after the old
    table was dropped, and the [INSERT] may fail after the new table was
    created. *)
Inductive refusal : Type :=
| before_drop
| at_create
| at_insert.

Variable refused_at : str -> DataFrame -> Database -> refusal.

(** The refusal of [PRAGMA table_info(<name>)], the name being pasted
    into the statement unquoted. *)
Variable pragma_rejects : str -> option str.

(** [pd.read_sql_query(query, conn)]: the database it leaves and the
    frame it returns or the exception it raises. *)
Variable read_sql_query : str -> Database -> Database * Exc DataFrame.

(** ** 3. Helper functions *)

(** The expression applied to one label [c] in
    [sanitize_column_names]; [str(c)] is [c], labels being strings. *)
Definition sanitize_column (c : str) : str :=
  replace RPAREN []
    (replace LPAREN []
       (replace SLASH [UNDERSCORE]
          (replace PERIOD [UNDERSCORE]
             (replace HYPHEN [UNDERSCORE]
                (replace SPACE [UNDERSCORE] (strip c)))))).

(** [df.columns = [... for c in df.columns]; return df]. *)
Definition sanitize_column_names (df : DataFrame) : DataFrame :=
  {| columns := map sanitize_column (columns df);
     dtypes := dtypes df;
     rows := rows df |}.

(** The test of the comprehension of line 60. *)
Definition keeps (c : char) : bool := isalnum c || char_eqb c UNDERSCORE.

(** Lines 58 and 60: the table name of a file name. *)
Definition table_name (file_name : str) : Exc str :=
  match index0 (split PERIOD file_name) with
  | inl e => raise e
  | inr stem => ret (join (comprehension keeps stem))
  end.

(** Statements that run against [conn] and may raise. *)
Definition M (A : Type) : Type := Database -> Database * Exc A.

Definition mret {A : Type} (a : A) : M A := fun db => (db, inr a).

Definition mbind {A B : Type} (m : M A) (k : A -> M B) : M B :=
  fun db =>
    match m db with
    | (db', inr a) => k a db'
    | (db', inl e) => (db', inl e)
    end.

Definition lift {A : Type} (x : Exc A) : M A := fun db => (db, x).

Notation "x <- m ;; k" := (mbind m (fun x => k))
  (at level 61, m at next level, right associativity).

Definition list_tables (db : Database) : list str := map fst db.

Definition lookup_table (t : str) (db : Database) : option DataFrame :=
  option_map snd (find (fun e => str_eqb (fst e) t) db).

Definition count_tables (t : str) (db : Database) : nat :=
  List.length (filter (fun e => str_eqb (fst e) t) db).

Definition table_exists (t : str) (db : Database) : bool :=
  existsb (fun e => str_eqb (fst e) t) db.

Definition drop_table (t : str) (db : Database) : Database :=
  filter (fun e => negb (str_eqb (fst e) t)) db.

(** The table that [CREATE TABLE] makes for a frame, before any row
    is inserted. *)
Definition created_empty (df : DataFrame) : DataFrame :=
  {| columns := columns df; dtypes := dtypes df; rows := [] |}.

(** [df.to_sql(t, conn, if_exists='replace', index=False)]: a table of
    that name is dropped, then the table is created and filled.  A
    refusal leaves the database where it stopped: untouched, without
    the dropped table, or with the new table still empty. *)
Definition to_sql (t : str) (df : DataFrame) : M unit :=
  fun db =>
    let db1 := if table_exists t db then drop_table t db else db in
    match engine_rejects t df db1 with
    | Some e =>
        (match refused_at t df db1 with
         | before_drop => db
         | at_create => db1
         | at_insert => db1 ++ [(t, created_empty df)]
         end, raise e)
    | None => (db1 ++ [(t, df)], ret tt)
    end.

(** The [try] block of [load_data_to_db]. *)
Definition load_data_to_db_try (uploaded_file : UploadedFile) : M str :=
  t <- lift (table_name (name uploaded_file)) ;;
  df <- lift (read_csv (content uploaded_file)) ;;
  let df := sanitize_column_names df in
  _ <- to_sql t df ;;
  mret t.

(** [load_data_to_db]: [(table_name, None)], or [(None, str(e))] from
    the [except Exception] clause. *)
Definition load_data_to_db (uploaded_file : UploadedFile)
  (db : Database) : Database * (option str * option str) :=
  match load_data_to_db_try uploaded_file db with
  | (db', inr t) => (db', (Some t, None))
  | (db', inl e) => (db', (None, Some e))
  end.

(** ** 2. Session state *)

Record SessionState : Type := {
  db_conn : option Database;
  uploaded_files_list : option (list str)
}.

(** A session that has not run the script yet. *)
Definition new_session : SessionState :=
  {| db_conn := None; uploaded_files_list := None |}.

(** Lines 21 to 29: a missing connection is opened on an empty
    in-memory database, a missing list starts empty. *)
Definition connect (s : SessionState) : Database :=
  match db_conn s with
  | Some db => db
  | None => []
  end.

Definition files_list (s : SessionState) : list str :=
  match uploaded_files_list s with
  | Some l => l
  | None => []
  end.

Definition init_session (s : SessionState) : SessionState :=
  {| db_conn := Some (connect s);
     uploaded_files_list := Some (files_list s) |}.

(** ** 4. Sidebar *)

(** The widgets that report on the data path. *)
Inductive widget : Type :=
| st_toast (msg : str)
| st_error (msg : str)
| st_info (msg : str)
| st_expander (label : str) (schema : list (str * dtype))
| st_expander_open (label : str)
| st_results (df : DataFrame).

(** [f"{x}"] of a string or [None]. *)
Definition fmt (x : option str) : str :=
  match x with
  | Some s => s
  | None => py "None"
  end.

(** [if t_name:] on a string or [None]. *)
Definition truthy_opt (x : option str) : bool :=
  match x with
  | Some s => truthy s
  | None => false
  end.

(** The state the sidebar works on: the database behind [conn], the
    list of loaded file names, the widgets drawn so far. *)
Definition Sidebar : Type := (Database * list str * list widget)%type.

(** One turn of the loop of lines 90 to 97. *)
Definition process_file (st : Sidebar) (file : UploadedFile) : Sidebar :=
  let '(db, files, ui) := st in
  if existsb (str_eqb (name file)) files then st
  else
    let '(db', (t_name, error)) := load_data_to_db file db in
    if truthy_opt t_name then
      (db', files ++ [name file],
       ui ++ [st_toast (py "Table '" ++ fmt t_name ++ py "' created!")])
    else
      (db', files, ui ++ [st_error (py "Error: " ++ fmt error)]).

Definition process_files (uploaded_files : list UploadedFile)
  (st : Sidebar) : Sidebar :=
  fold_left process_file uploaded_files st.

(** [PRAGMA table_info(<t>)], columns [name] and [type]. *)
Definition table_info (t : str) (db : Database)
  : Exc (list (str * dtype)) :=
  match pragma_rejects t with
  | Some e => raise e
  | None =>
      match lookup_table t db with
      | Some df => ret (combine (columns df) (dtypes df))
      | None => ret []
      end
  end.

(** The mapping the schema viewer shows: for every table of
    [sqlite_master], in order, its columns. *)
Fixpoint describe_tables (tables : list str) (db : Database)
  : Exc (list (str * list (str * dtype))) :=
  match tables with
  | [] => ret []
  | t :: ts =>
      match table_info t db with
      | inl e => raise e
      | inr schema =>
          match describe_tables ts db with
          | inl e => raise e
          | inr rest => ret ((t, schema) :: rest)
          end
      end
  end.

Definition describe (db : Database)
  : Exc (list (str * list (str * dtype))) :=
  describe_tables (list_tables db) db.

(** Lines 108 to 124 as widgets: one expander per table up to the
    first exception.  The expander of the failing table is open when
    [pd.read_sql] raises, so it is shown without content
    ([st_expander_open]); the handler then adds an error box. *)
Fixpoint schema_expanders (tables : list str) (db : Database)
  : list widget :=
  match tables with
  | [] => []
  | t :: ts =>
      match table_info t db with
      | inl e =>
          [st_expander_open (py "Table: " ++ t);
           st_error (py "DB Error: " ++ e)]
      | inr schema =>
          st_expander (py "Table: " ++ t) schema :: schema_expanders ts db
      end
  end.

Definition schema_view (db : Database) : list widget :=
  match list_tables db with
  | [] => [st_info (py "No tables found. Upload a CSV to start.")]
  | tables => schema_expanders tables db
  end.

(** Lines 127 to 131, "Clear Database": the connection is closed and
    removed from the session, the list is emptied, the script reruns. *)
Definition clear_database (s : SessionState) : SessionState :=
  {| db_conn := None; uploaded_files_list := Some [] |}.

(** ** 6. Results *)

(** The tabs, the export buttons and the plot drawn for a result: the
    widgets shown and the exception raised on the way, if any. *)
Variable present : DataFrame -> list widget * option str.

(** The prefix of the error box of line 238; U+274C is the cross. *)
Definition sql_error_prefix : str := [10060; SPACE] ++ py "SQL Error: ".

(** Lines 163 to 238. *)
Definition run_query (run_btn : bool) (query : str) (db : Database)
  : Database * list widget :=
  if run_btn || truthy query then
    match read_sql_query query db with
    | (db', inr results_df) =>
        match present results_df with
        | (ui, None) => (db', ui)
        | (ui, Some e) => (db', ui ++ [st_error (sql_error_prefix ++ e)])
        end
    | (db', inl e) => (db', [st_error (sql_error_prefix ++ e)])
    end
  else (db, []).

(** ** One run of the script *)

Record Inputs : Type := {
  uploaded_files : list UploadedFile;
  clear_clicked : bool;
  run_btn : bool;
  query : str
}.

(** Top to bottom; [st.rerun()] in the clear handler ends the run. *)
Definition script (inp : Inputs) (s : SessionState)
  : SessionState * list widget :=
  let s0 := init_session s in
  let '(db, files, ui) :=
    process_files (uploaded_files inp) (connect s0, files_list s0, []) in
  let ui := ui ++ schema_view db in
  if clear_clicked inp then
    (clear_database {| db_conn := Some db;
                       uploaded_files_list := Some files |}, ui)
  else
    let '(db', ui') := run_query (run_btn inp) (query inp) db in
    ({| db_conn := Some db'; uploaded_files_list := Some files |},
     ui ++ ui').



(** ** 5. Main area: the SQL editor *)

Definition generic_query : str :=
  py "SELECT * FROM sqlite_master WHERE type='table';".

(** Lines 143 to 150: the text the editor starts with.  With a file in
    the list, [SELECT name FROM sqlite_master ... LIMIT 1] is asked for
    the first table. *)
Definition default_query (files : list str) (db : Database) : str :=
  if Nat.ltb 0 (List.length files) then
    match list_tables db with
    | [] => generic_query
    | t :: _ => py "SELECT * FROM " ++ t ++ py " LIMIT 10;"
    end
  else generic_query.

(** [st.text_area(..., value=default_query)]: what was typed, the
    default while nothing was. *)
Definition text_area (value_ : str) (typed : option str) : str :=
  match typed with
  | Some s => s
  | None => value_
  end.

(** Lines 143 to 238 for one run: the editor, then the query block. *)
Definition main_area (typed : option str) (btn : bool)
  (files : list str) (db : Database) : Database * list widget :=
  run_query btn (text_area (default_query files db) typed) db.

(** ** 6. The quick plotter *)

(** [results_df.empty]: an axis of length 0. *)
Definition empty (df : DataFrame) : bool :=
  match columns df, rows df with
  | [], _ => true
  | _, [] => true
  | _ :: _, _ :: _ => false
  end.

(** The options of the "Chart Type" box. *)
Definition chart_types : list str :=
  [py "Bar"; py "Line"; py "Scatter"; py "Pie"; py "Histogram"].

(** Line 215: the preselected index of the "Y Axis" box. *)
Definition y_idx (cols : list str) : nat :=
  if Nat.ltb 1 (List.length cols) then 1%nat else 0%nat.

(** The options of the "Color Group" box. *)
Definition color_options (cols : list str) : list str := py "None" :: cols.

(** Line 220. *)
Definition color_opt (color_col : str) : option str :=
  if str_eqb color_col (py "None") then None else Some color_col.

(** What the four boxes return. *)
Record PlotChoice : Type := {
  chart_type : str;
  x_col : str;
  y_col : str;
  color_col : str
}.

(** The call to plotly express that builds the figure. *)
Inductive figure : Type :=
| px_bar (x y : str) (color : option str)
| px_line (x y : str) (color : option str)
| px_scatter (x y : str) (color : option str)
| px_pie (names values : str)
| px_histogram (x : str) (color : option str).

(** Lines 222 to 233: [fig] stays unbound when no branch is taken, and
    [st.plotly_chart(fig)] then raises [NameError]. *)
Definition quick_plot (sel : PlotChoice) : Exc figure :=
  let color := color_opt (color_col sel) in
  if str_eqb (chart_type sel) (py "Bar") then
    ret (px_bar (x_col sel) (y_col sel) color)
  else if str_eqb (chart_type sel) (py "Line") then
    ret (px_line (x_col sel) (y_col sel) color)
  else if str_eqb (chart_type sel) (py "Scatter") then
    ret (px_scatter (x_col sel) (y_col sel) color)
  else if str_eqb (chart_type sel) (py "Pie") then
    ret (px_pie (x_col sel) (y_col sel))
  else if str_eqb (chart_type sel) (py "Histogram") then
    ret (px_histogram (x_col sel) color)
  else raise (py "name 'fig' is not defined").

(** What the second tab shows. *)
Inductive tab2 : Type :=
| st_plotly_chart (fig : figure)
| st_no_chart (msg : str).

(** Lines 203 to 235. *)
Definition visualization (results_df : DataFrame) (sel : PlotChoice)
  : Exc tab2 :=
  if negb (empty results_df) then
    match quick_plot sel with
    | inl e => raise e
    | inr fig => ret (st_plotly_chart fig)
    end
  else
    ret (st_no_chart
           (py "Query returned no results, so no charts can be drawn.")).

(** ** The schema of a stored table *)

(** What [PRAGMA table_info] reports of a table, under its name. *)
Definition table_schema (e : str * DataFrame)
  : str * list (str * dtype) :=
  (fst e, combine (columns (snd e)) (dtypes (snd e))).

(** The expander of one entry of the mapping. *)
Definition expander_of (m : str * list (str * dtype)) : widget :=
  st_expander (py "Table: " ++ fst m) (snd m).

(** The [color] argument of the call, when it has one. *)
Definition figure_color (fig : figure) : option str :=
  match fig with
  | px_bar _ _ color => color
  | px_line _ _ color => color
  | px_scatter _ _ color => color
  | px_pie _ _ => None
  | px_histogram _ color => color
  end.

(* ================================================================== *)
(** * Notions of the specification *)
(* ================================================================== *)

(** The text of [s] up to its final [PERIOD]; [None] when [s] has none. *)
Fixpoint before_final_period (s : str) : option str :=
  match s with
  | [] => None
  | c :: s' =>
      match before_final_period s' with
      | Some stem => Some (c :: stem)
      | None => if char_eqb c PERIOD then Some [] else None
      end
  end.

(** The table-name rule in the words of the specification: strip a
    trailing extension (the text after the final period), then retain
    the characters that are alphanumeric or underscore. *)
Definition spec_table_name (s : str) : str :=
  filter keeps
    (match before_final_period s with
     | Some stem => stem
     | None => s
     end).

(** One character through [replace old [new]]. *)
Definition subst_char (old new c : char) : char :=
  if char_eqb c old then new else c.

(** The characters the column rule replaces by an underscore, and those
    it removes. *)
Definition is_separator (c : char) : bool :=
  char_eqb c SPACE || char_eqb c HYPHEN || char_eqb c PERIOD
  || char_eqb c SLASH.

Definition is_paren (c : char) : bool :=
  char_eqb c LPAREN || char_eqb c RPAREN.

(** What the column rule guarantees of its output, and no more: no
    space, hyphen, period, slash or parenthesis is left in it. *)
Definition no_rewritten_char (s : str) : Prop :=
  Forall (fun c => is_separator c = false /\ is_paren c = false) s.



Definition underscore_only (s : str) : Prop :=
  Forall (fun c => c = UNDERSCORE) s.

Definition starts_with_space (s : str) : bool :=
  match s with
  | [] => false
  | c :: _ => isspace c
  end.

(** [t] is [s] without its leading and trailing white space. *)
Definition trimmed (s t : str) : Prop :=
  exists l r,
    s = l ++ t ++ r
    /\ Forall (fun c => isspace c = true) l
    /\ Forall (fun c => isspace c = true) r
    /\ starts_with_space t = false
    /\ starts_with_space (rev t) = false.


(** The database after loading the files in turn. *)
Definition load_all (files : list UploadedFile) (db : Database) : Database :=
  fold_left (fun db file => fst (load_data_to_db file db)) files db.

(* ================================================================== *)
(** * Stand-ins for concrete runs *)
(* ================================================================== *)

(** A character database with no alphanumeric character above U+00FF;
    on Latin-1 text [isalnum] does not consult it. *)
Definition latin1_database : char -> bool := fun _ => false.

(** A parser that reads the given frame from any file that is not empty
    and raises pandas' [EmptyDataError] on the empty file. *)
Definition parser_of (df : DataFrame) : list Byte.byte -> Exc DataFrame :=
  fun bytes =>
    match bytes with
    | [] => raise (py "No columns to parse from file")
    | _ :: _ => ret df
    end.

Fixpoint first_duplicate (l : list str) : option str :=
  match l with
  | [] => None
  | c :: l' =>
      if existsb (str_eqb c) l' then Some c else first_duplicate l'
  end.

(** An engine that refuses a frame in which a column name occurs twice,
    with the message of SQLite, and accepts every other frame. *)
Definition unique_columns_engine
  : str -> DataFrame -> Database -> option str :=
  fun _ df _ =>
    match first_duplicate (columns df) with
    | Some c => Some (py "duplicate column name: " ++ c)
    | None => None
    end.

(** The stage of the refusals of [unique_columns_engine]: SQLite
    refuses the [CREATE TABLE]. *)
Definition refused_at_create : str -> DataFrame -> Database -> refusal :=
  fun _ _ _ => at_create.

(** [s] without the prefix [p], [None] when [s] does not start with
    it. *)
Fixpoint removeprefix (p s : str) : option str :=
  match p, s with
  | [], _ => Some s
  | _ :: _, [] => None
  | c :: p', d :: s' => if char_eqb c d then removeprefix p' s' else None
  end.

(** A query engine that knows one statement, [DROP TABLE <name>].  It
    drops a table that exists; the statement returns no rows, and the
    fetch of its rows raises after the drop, as [pd.read_sql_query]
    does over [sqlite3]. *)
Definition drop_table_engine
  : str -> Database -> Database * Exc DataFrame :=
  fun q db =>
    match removeprefix (py "DROP TABLE ") q with
    | Some t =>
        if table_exists t db
        then (drop_table t db, raise (py "'NoneType' object is not iterable"))
        else (db, raise (py "no such table: " ++ t))
    | None => (db, raise (py "syntax error"))
    end.

(** A query engine that finds no table, whatever the statement. *)
Definition no_such_table_engine
  : str -> Database -> Database * Exc DataFrame :=
  fun _ db => (db, raise (py "no such table: nonexistent")).

(** A presentation layer that shows the result and never raises. *)
Definition plain_present : DataFrame -> list widget * option str :=
  fun df => ([st_results df], None).

(** A parser that tells two files apart by their first byte: the first
    frame for a file that starts with the digit 1, the second for any
    other file that is not empty. *)
Definition parser_of_two (df1 df2 : DataFrame)
  : list Byte.byte -> Exc DataFrame :=
  fun bytes =>
    match bytes with
    | [] => raise (py "No columns to parse from file")
    | b :: _ => if Byte.eqb b Byte.x31 then ret df1 else ret df2
    end.

(** A [PRAGMA] that is refused for the table named [order], a keyword of
    SQL, as SQLite refuses it. *)
Definition keyword_pragma : str -> option str :=
  fun t =>
    if str_eqb t (py "order")
    then Some (py "near " ++ [34] ++ py "order" ++ [34]
               ++ py ": syntax error")
    else None.

(** A [PRAGMA] that is never refused. *)
Definition lenient_pragma : str -> option str := fun _ => None.

(* ================================================================== *)
(** * String lemmas *)
(* ================================================================== *)

Lemma char_eqb_eq (a b : char) : char_eqb a b = true <-> a = b.
Proof. apply N.eqb_eq. Qed.

Lemma char_eqb_neq (a b : char) : char_eqb a b = false <-> a <> b.
Proof. apply N.eqb_neq. Qed.

Lemma str_eqb_eq (a b : str) : str_eqb a b = true <-> a = b.
Proof.
  revert b; induction a as [|x a IH]; intros [|y b]; simpl;
    try (split; [discriminate | discriminate]); [split; reflexivity|].
  rewrite andb_true_iff, char_eqb_eq, IH.
  split; [intros [-> ->]; reflexivity | intros H; inversion H; auto].
Qed.

Lemma str_eqb_refl (a : str) : str_eqb a a = true.
Proof. apply str_eqb_eq; reflexivity. Qed.

Lemma str_eqb_neq (a b : str) : str_eqb a b = false <-> a <> b.
Proof.
  rewrite <- not_true_iff_false, str_eqb_eq; reflexivity.
Qed.

Lemma join_comprehension (p : char -> bool) (s : str) :
  join (comprehension p s) = filter p s.
Proof.
  unfold join, comprehension.
  induction (filter p s) as [|c l IH]; simpl; [reflexivity | now rewrite IH].
Qed.

Lemma split_not_nil (sep : char) (s : str) : split sep s <> [].
Proof.
  destruct s as [|c s]; simpl; [discriminate|].
  destruct (char_eqb c sep); [discriminate|].
  destruct (split sep s); discriminate.
Qed.

(** The first piece of a split: the text before the first separator. *)
Lemma split_first (sep : char) (s : str) :
  exists stem rest,
    split sep s = stem :: rest
    /\ ~ In sep stem
    /\ (s = stem \/ exists tl, s = stem ++ sep :: tl).
Proof.
  induction s as [|c s (stem & rest & Hs & Hn & Hd)]; simpl.
  - exists [], []; auto.
  - destruct (char_eqb c sep) eqn:E.
    + apply char_eqb_eq in E; subst c.
      exists [], (split sep s); repeat split; auto.
      right; exists s; reflexivity.
    + apply char_eqb_neq in E.
      rewrite Hs. exists (c :: stem), rest; repeat split.
      * intros [H|H]; [congruence | contradiction].
      * destruct Hd as [->|[tl ->]]; [left | right; exists tl]; reflexivity.
Qed.

Lemma replace_one (old new : char) (s : str) :
  replace old [new] s = map (subst_char old new) s.
Proof.
  unfold replace, subst_char; induction s as [|c s IH]; simpl; [reflexivity|].
  rewrite IH; destruct (char_eqb c old); reflexivity.
Qed.

Lemma replace_none (old : char) (s : str) :
  replace old [] s = filter (fun c => negb (char_eqb c old)) s.
Proof.
  unfold replace; induction s as [|c s IH]; simpl; [reflexivity|].
  rewrite IH; destruct (char_eqb c old); reflexivity.
Qed.

Lemma dropwhile_app_stop (p : char -> bool) (l : str) (c : char) (m : str) :
  p c = false -> dropwhile p (l ++ c :: m) = dropwhile p l ++ c :: m.
Proof.
  intros Hc; induction l as [|x l IH]; simpl.
  - now rewrite Hc.
  - destruct (p x); [exact IH | reflexivity].
Qed.

Lemma dropwhile_split (p : char -> bool) (s : str) :
  exists l, s = l ++ dropwhile p s
            /\ Forall (fun c => p c = true) l
            /\ match dropwhile p s with
               | [] => True
               | c :: _ => p c = false
               end.
Proof.
  induction s as [|x s (l & Hs & Hl & Hh)]; simpl.
  - exists []; auto.
  - destruct (p x) eqn:E.
    + exists (x :: l); repeat split; auto. simpl; congruence.
    + exists []; repeat split; auto.
Qed.

Lemma strip_trimmed (s : str) : trimmed s (strip s).
Proof.
  unfold trimmed, strip, rstrip, lstrip.
  destruct (dropwhile_split isspace s) as (l & Hs & Hl & Hh).
  destruct (dropwhile_split isspace (rev (dropwhile isspace s)))
    as (r & Hr & Hrl & Hrh).
  set (u := dropwhile isspace s) in *.
  set (t := dropwhile isspace (rev u)) in *.
  exists l, (rev r); repeat split.
  - rewrite Hs at 1. f_equal.
    rewrite <- (rev_involutive u), Hr, rev_app_distr; reflexivity.
  - exact Hl.
  - apply Forall_rev; exact Hrl.
  - destruct u as [|c u'] eqn:Eu.
    + subst t; reflexivity.
    + subst t; simpl rev.
      rewrite dropwhile_app_stop by exact Hh.
      rewrite rev_app_distr; simpl. exact Hh.
  - rewrite rev_involutive. unfold starts_with_space.
    destruct t; [reflexivity | exact Hrh].
Qed.

Lemma trimmed_In (s t : str) (c : char) : trimmed s t -> In c t -> In c s.
Proof.
  intros (l & r & -> & _) H.
  apply in_or_app; right; apply in_or_app; left; exact H.
Qed.

Lemma filter_twice {A : Type} (p q : A -> bool) (l : list A) :
  filter q (filter p l) = filter (fun x => p x && q x) l.
Proof.
  induction l as [|x l IH]; simpl; [reflexivity|].
  destruct (p x); simpl; [destruct (q x)|]; now rewrite IH.
Qed.

(** Boolean tests on characters, turned into arithmetic. *)
Ltac char_arith :=
  unfold keeps, isalnum, latin1_isalnum, ascii_word_char, is_separator,
    is_paren, isspace, between, char_eqb,
    SPACE, LPAREN, RPAREN, HYPHEN, PERIOD, SLASH, UNDERSCORE in *;
  repeat match goal with
         | H : context [if ?c <? ?n then _ else _] |- _ =>
             destruct (N.ltb_spec c n)
         | |- context [if ?c <? ?n then _ else _] =>
             destruct (N.ltb_spec c n)
         | |- context [if ?c =? ?n then _ else _] =>
             destruct (N.eqb_spec c n)
         end;
  repeat rewrite ?orb_true_iff, ?orb_false_iff, ?andb_true_iff,
    ?andb_false_iff, ?negb_true_iff, ?negb_false_iff,
    ?N.leb_le, ?N.leb_gt, ?N.eqb_eq, ?N.eqb_neq in *;
  try lia.

(* ================================================================== *)
(** * The identifier sanitizers *)
(* ================================================================== *)

(** The table name is the filtered text before the first period. *)
Lemma table_name_stem (s : str) :
  exists stem,
    table_name s = inr (filter keeps stem)
    /\ ~ In PERIOD stem
    /\ (s = stem \/ exists tl, s = stem ++ PERIOD :: tl).
Proof.
  destruct (split_first PERIOD s) as (stem & rest & Hs & Hn & Hd).
  exists stem; repeat split; auto.
  unfold table_name; rewrite Hs; simpl.
  unfold ret; now rewrite join_comprehension.
Qed.

Lemma separators_to_underscore (c : char) :
  subst_char SLASH UNDERSCORE
    (subst_char PERIOD UNDERSCORE
       (subst_char HYPHEN UNDERSCORE (subst_char SPACE UNDERSCORE c)))
  = if is_separator c then UNDERSCORE else c.
Proof.
  unfold subst_char, is_separator, char_eqb, SPACE, HYPHEN, PERIOD, SLASH,
    UNDERSCORE.
  destruct (N.eqb_spec c 32) as [->|H1]; [reflexivity|].
  destruct (N.eqb_spec c 45) as [->|H2]; [reflexivity|].
  destruct (N.eqb_spec c 46) as [->|H3]; [reflexivity|].
  destruct (N.eqb_spec c 47) as [->|H4]; reflexivity.
Qed.

(** The column rule in one pass: separators become underscores,
    parentheses go. *)
Lemma sanitize_column_one_pass (s : str) :
  sanitize_column s
  = filter (fun c => negb (is_paren c))
      (map (fun c => if is_separator c then UNDERSCORE else c) (strip s)).
Proof.
  unfold sanitize_column.
  rewrite !replace_none, !replace_one, filter_twice, !map_map.
  rewrite (map_ext _ _ separators_to_underscore).
  apply filter_ext; intros d.
  unfold is_paren; now rewrite negb_orb.
Qed.

Lemma sanitize_column_chars (s : str) (c : char) :
  In c (sanitize_column s) ->
  is_paren c = false
  /\ ((c = UNDERSCORE /\ exists d, In d s /\ is_separator d = true)
      \/ (In c s /\ is_separator c = false)).
Proof.
  rewrite sanitize_column_one_pass, filter_In, in_map_iff.
  intros [(d & Hd & Hin) Hp].
  apply negb_true_iff in Hp; split; [exact Hp|].
  apply (trimmed_In _ _ _ (strip_trimmed s)) in Hin.
  destruct (is_separator d) eqn:E.
  - left; split; [now symmetry | exists d; auto].
  - right; subst d; auto.
Qed.

Lemma sanitize_column_valid (s : str) :
  no_rewritten_char (sanitize_column s).
Proof.
  apply Forall_forall; intros c H.
  destruct (sanitize_column_chars s c H) as [Hp [[-> _]|[_ Hs]]];
    split; auto.
Qed.

Lemma before_final_period_none (s : str) :
  ~ In PERIOD s -> before_final_period s = None.
Proof.
  induction s as [|c s IH]; simpl; [reflexivity|].
  intros H. rewrite IH by (intros Hs; apply H; right; exact Hs).
  destruct (char_eqb c PERIOD) eqn:E; [|reflexivity].
  apply char_eqb_eq in E; subst; exfalso; apply H; left; reflexivity.
Qed.

Lemma before_final_period_app (stem tl : str) :
  ~ In PERIOD tl -> before_final_period (stem ++ PERIOD :: tl) = Some stem.
Proof.
  intros H; induction stem as [|c stem IH]; simpl.
  - now rewrite (before_final_period_none tl H).
  - now rewrite IH.
Qed.

(** With at most one period in the name, the first period is the final
    one and the code computes the table name of the specification. *)
Lemma table_name_single_period (s : str) :
  (count_occ N.eq_dec s PERIOD <= 1)%nat ->
  table_name s = inr (spec_table_name s).
Proof.
  intros Hc.
  destruct (table_name_stem s) as (stem & Ht & Hn & [->|[tl ->]]);
    rewrite Ht; unfold spec_table_name.
  - now rewrite (before_final_period_none stem Hn).
  - rewrite before_final_period_app; [reflexivity|].
    rewrite count_occ_app, count_occ_cons_eq in Hc by reflexivity.
    apply (count_occ_not_In N.eq_dec). unfold char in *. lia.
Qed.

(** C2 (amended). The table name of a file identifier is the text before
    its FIRST period (the whole identifier when it has none), of which
    only the alphanumeric and underscore characters are retained, the
    others being dropped; when the identifier has at most one period this
    is the text up to the final period, as the specification has it. *)
Theorem table_name_first_period (s : str) :
  (exists stem,
      table_name s = inr (filter keeps stem)
      /\ ~ In PERIOD stem
      /\ (s = stem \/ exists tl, s = stem ++ PERIOD :: tl))
  /\ ((count_occ N.eq_dec s PERIOD <= 1)%nat ->
      table_name s = inr (spec_table_name s)).
Proof.
  split; [apply table_name_stem | apply table_name_single_period].
Qed.

Lemma keeps_ascii (c : char) :
  keeps c = true -> c < 128 -> ascii_word_char c = true.
Proof. intros H Hc. char_arith. Qed.

(** C3 (amended). The table-name sanitizer never fails, and every
    character of its output is an underscore or alphanumeric in the sense
    of [str.isalnum] (Unicode letters and digits included); every ASCII
    character of the output is in [[A-Za-z0-9_]]. *)
Theorem table_name_chars (s : str) :
  exists t,
    table_name s = inr t
    /\ Forall (fun c => keeps c = true
                        /\ (c < 128 -> ascii_word_char c = true)) t.
Proof.
  destruct (table_name_stem s) as (stem & Ht & _).
  exists (filter keeps stem); split; [exact Ht|].
  apply Forall_forall; intros c H.
  apply filter_In in H; destruct H as [_ H].
  split; [exact H | apply keeps_ascii; exact H].
Qed.

(** C4. The column-name sanitizer trims leading and trailing white
    space, turns every space, hyphen, period and slash of what is left
    into an underscore and removes the parentheses; its output holds no
    space, hyphen, period, slash or parenthesis. *)
Theorem sanitize_column_spec (s : str) :
  trimmed s (strip s)
  /\ sanitize_column s
     = filter (fun c => negb (is_paren c))
         (map (fun c => if is_separator c then UNDERSCORE else c) (strip s))
  /\ Forall (fun c => c <> SPACE /\ c <> HYPHEN /\ c <> PERIOD
                      /\ c <> SLASH /\ c <> LPAREN /\ c <> RPAREN)
       (sanitize_column s).
Proof.
  split; [apply strip_trimmed|].
  split; [apply sanitize_column_one_pass|].
  eapply Forall_impl; [|apply sanitize_column_valid].
  intros c [Hs Hp]. char_arith.
Qed.

Lemma underscore_only_table_name (s : str) :
  forallb (fun c => negb (isalnum c)) s = true ->
  exists t, table_name s = inr t /\ underscore_only t.
Proof.
  intros H.
  destruct (table_name_stem s) as (stem & Ht & _ & Hd).
  exists (filter keeps stem); split; [exact Ht|].
  apply Forall_forall; intros c Hc.
  apply filter_In in Hc; destruct Hc as [Hin Hk].
  assert (In c s) as Hs
    by (destruct Hd as [->|[tl ->]]; [|apply in_or_app; left]; exact Hin).
  rewrite forallb_forall in H. specialize (H c Hs).
  unfold keeps in Hk. apply negb_true_iff in H. rewrite H in Hk.
  now apply char_eqb_eq in Hk.
Qed.

Lemma underscore_only_sanitize_column (s : str) :
  forallb (fun c => is_separator c || is_paren c) s = true ->
  underscore_only (sanitize_column s).
Proof.
  intros H; apply Forall_forall; intros c Hc.
  rewrite forallb_forall in H.
  destruct (sanitize_column_chars s c Hc) as [Hp [[-> _]|[Hin Hs]]];
    [reflexivity|].
  specialize (H c Hin). rewrite Hs, Hp in H. discriminate.
Qed.

(** C9. Both sanitizers are total and deterministic: every string has
    exactly one table name, which is computed without an exception, and
    exactly one column name.  The empty string is mapped to the empty
    identifier; a file name without an alphanumeric character, and a
    header made of separators and parentheses only, are mapped to an
    identifier of underscores only (possibly empty). *)
Theorem sanitizers_total_deterministic (s : str) :
  (exists! t, table_name s = inr t)
  /\ (exists! c, sanitize_column s = c)
  /\ table_name [] = inr []
  /\ sanitize_column [] = []
  /\ (forallb (fun c => negb (isalnum c)) s = true ->
      exists t, table_name s = inr t /\ underscore_only t)
  /\ (forallb (fun c => is_separator c || is_paren c) s = true ->
      underscore_only (sanitize_column s)).
Proof.
  repeat split.
  - destruct (table_name_stem s) as (stem & Ht & _).
    exists (filter keeps stem); split; [exact Ht|].
    intros t' Ht'; rewrite Ht in Ht'; now inversion Ht'.
  - exists (sanitize_column s); split; [reflexivity | auto].
  - apply underscore_only_table_name.
  - apply underscore_only_sanitize_column.
Qed.

(** C10. Sanitizing the headers of a parsed frame keeps the number and
    the order of its columns (the i-th label becomes the sanitized i-th
    label) and leaves the rows and the column types as they were. *)
Theorem sanitize_column_names_frame (df : DataFrame) :
  List.length (columns (sanitize_column_names df)) = List.length (columns df)
  /\ (forall i : nat,
         nth_error (columns (sanitize_column_names df)) i
         = option_map sanitize_column (nth_error (columns df) i))
  /\ rows (sanitize_column_names df) = rows df
  /\ dtypes (sanitize_column_names df) = dtypes df.
Proof.
  unfold sanitize_column_names; cbn [columns rows dtypes].
  repeat split.
  - apply length_map.
  - intros i; apply nth_error_map.
Qed.

(* ================================================================== *)
(** * The store *)
(* ================================================================== *)

Lemma drop_table_absent (t : str) (db : Database) :
  table_exists t db = false -> drop_table t db = db.
Proof.
  unfold table_exists, drop_table.
  induction db as [|e db IH]; simpl; [reflexivity|].
  rewrite orb_false_iff; intros [He Hdb].
  rewrite He; simpl; now rewrite IH.
Qed.

Lemma drop_table_if_exists (t : str) (db : Database) :
  (if table_exists t db then drop_table t db else db) = drop_table t db.
Proof.
  destruct (table_exists t db) eqn:E; [reflexivity|].
  symmetry; now apply drop_table_absent.
Qed.

Lemma count_tables_app (t : str) (a b : Database) :
  count_tables t (a ++ b) = (count_tables t a + count_tables t b)%nat.
Proof. unfold count_tables; now rewrite filter_app, length_app. Qed.

Lemma count_tables_drop (t : str) (db : Database) :
  count_tables t (drop_table t db) = 0%nat.
Proof.
  unfold count_tables, drop_table; rewrite filter_twice.
  induction db as [|e db IH]; simpl; [reflexivity|].
  destruct (str_eqb (fst e) t); simpl; exact IH.
Qed.

Lemma count_tables_drop_other (t t' : str) (db : Database) :
  t' <> t -> count_tables t' (drop_table t db) = count_tables t' db.
Proof.
  intros Hne; unfold count_tables, drop_table; rewrite filter_twice.
  f_equal; apply filter_ext; intros e.
  destruct (str_eqb (fst e) t') eqn:E1; [|now rewrite andb_false_r].
  apply str_eqb_eq in E1; rewrite andb_true_r.
  apply negb_true_iff, str_eqb_neq; congruence.
Qed.

Lemma lookup_table_absent (t : str) (db : Database) :
  count_tables t db = 0%nat -> lookup_table t db = None.
Proof.
  unfold count_tables, lookup_table.
  induction db as [|e db IH]; simpl; [reflexivity|].
  destruct (str_eqb (fst e) t); simpl; [discriminate | exact IH].
Qed.

Lemma lookup_table_app (t : str) (a b : Database) :
  lookup_table t (a ++ b)
  = match lookup_table t a with
    | Some df => Some df
    | None => lookup_table t b
    end.
Proof.
  unfold lookup_table; induction a as [|e a IH]; simpl; [reflexivity|].
  destruct (str_eqb (fst e) t); simpl; [reflexivity | exact IH].
Qed.

Lemma lookup_table_drop_other (t t' : str) (db : Database) :
  t' <> t -> lookup_table t' (drop_table t db) = lookup_table t' db.
Proof.
  intros Hne; unfold lookup_table, drop_table.
  induction db as [|e db IH]; simpl; [reflexivity|].
  destruct (str_eqb (fst e) t) eqn:E; simpl.
  - apply str_eqb_eq in E.
    assert (str_eqb (fst e) t' = false) as ->
        by (apply str_eqb_neq; congruence).
    exact IH.
  - destruct (str_eqb (fst e) t'); [reflexivity | exact IH].
Qed.

(** What [if_exists='replace'] leaves: one table of that name, the new
    one, and the other tables as they were. *)
Lemma replace_table (t : str) (df : DataFrame) (db : Database) :
  count_tables t (drop_table t db ++ [(t, df)]) = 1%nat
  /\ lookup_table t (drop_table t db ++ [(t, df)]) = Some df
  /\ forall t', t' <> t ->
       count_tables t' (drop_table t db ++ [(t, df)]) = count_tables t' db
       /\ lookup_table t' (drop_table t db ++ [(t, df)]) = lookup_table t' db.
Proof.
  repeat split.
  - rewrite count_tables_app, count_tables_drop.
    unfold count_tables; simpl; now rewrite str_eqb_refl.
  - rewrite lookup_table_app,
      (lookup_table_absent _ _ (count_tables_drop t db)).
    unfold lookup_table; simpl; now rewrite str_eqb_refl.
  - rewrite count_tables_app, count_tables_drop_other by assumption.
    unfold count_tables; simpl.
    assert (str_eqb t t' = false) as ->
        by (apply str_eqb_neq; congruence).
    simpl; lia.
  - rewrite lookup_table_app, lookup_table_drop_other by assumption.
    destruct (lookup_table t' db); [reflexivity|].
    unfold lookup_table; simpl.
    assert (str_eqb t t' = false) as ->
        by (apply str_eqb_neq; congruence).
    reflexivity.
Qed.

(* ================================================================== *)
(** * The loader *)
(* ================================================================== *)

(** [load_data_to_db], statement by statement. *)
Lemma load_data_to_db_unfold (file : UploadedFile) (db : Database) :
  exists t,
    table_name (name file) = inr t
    /\ load_data_to_db file db
       = match read_csv (content file) with
         | inl e => (db, (None, Some e))
         | inr df =>
             match engine_rejects t (sanitize_column_names df)
                     (drop_table t db) with
             | Some e =>
                 (match refused_at t (sanitize_column_names df)
                          (drop_table t db) with
                  | before_drop => db
                  | at_create => drop_table t db
                  | at_insert =>
                      drop_table t db
                      ++ [(t, created_empty (sanitize_column_names df))]
                  end, (None, Some e))
             | None =>
                 (drop_table t db ++ [(t, sanitize_column_names df)],
                  (Some t, None))
             end
         end.
Proof.
  destruct (table_name_stem (name file)) as (stem & Ht & _).
  exists (filter keeps stem); split; [exact Ht|].
  unfold load_data_to_db, load_data_to_db_try, mbind, lift, mret, to_sql.
  rewrite Ht.
  destruct (read_csv (content file)) as [e|df]; [reflexivity|].
  rewrite drop_table_if_exists.
  destruct (engine_rejects _ _ _); reflexivity.
Qed.

(** C1. When a file is loaded, whatever the database held before (a
    table of that name in particular), the database holds exactly one
    table under the table name of the file; its columns are the
    sanitized headers of the parsed file, its rows and types those of the
    parsed file; every other table is as it was. *)
Theorem load_replaces_table (file : UploadedFile) (db db' : Database)
  (t : str) :
  load_data_to_db file db = (db', (Some t, None)) ->
  exists df,
    read_csv (content file) = inr df
    /\ table_name (name file) = inr t
    /\ count_tables t db' = 1%nat
    /\ lookup_table t db' = Some (sanitize_column_names df)
    /\ forall t', t' <> t ->
         count_tables t' db' = count_tables t' db
         /\ lookup_table t' db' = lookup_table t' db.
Proof.
  destruct (load_data_to_db_unfold file db) as (t0 & Ht & ->).
  destruct (read_csv (content file)) as [e|df]; [discriminate|].
  destruct (engine_rejects _ _ _); [discriminate|].
  intros H; inversion H; subst.
  exists df; repeat split; auto; apply replace_table; assumption.
Qed.

(** C5. [load_data_to_db] returns on every file: the table name and no
    error when the file is parsed and the table is stored, no table name
    and the message of the exception otherwise; a parse failure leaves
    the database as it was. *)
Theorem load_data_to_db_result (file : UploadedFile) (db : Database) :
  ((exists t, snd (load_data_to_db file db) = (Some t, None))
   \/ (exists e, snd (load_data_to_db file db) = (None, Some e)))
  /\ exists t,
      table_name (name file) = inr t
      /\ match read_csv (content file) with
         | inl e => load_data_to_db file db = (db, (None, Some e))
         | inr df =>
             match engine_rejects t (sanitize_column_names df)
                     (drop_table t db) with
             | Some e => snd (load_data_to_db file db) = (None, Some e)
             | None => snd (load_data_to_db file db) = (Some t, None)
             end
         end.
Proof.
  destruct (load_data_to_db_unfold file db) as (t & Ht & ->).
  split.
  - destruct (read_csv (content file)) as [e|df]; [right; simpl; eauto|].
    destruct (engine_rejects _ _ _); [right | left]; simpl; eauto.
  - exists t; split; [exact Ht|].
    destruct (read_csv (content file)) as [e|df]; [reflexivity|].
    destruct (engine_rejects _ _ _); reflexivity.
Qed.


(* ================================================================== *)
(** * The upload loop *)
(* ================================================================== *)

(** A file whose name is in the list is not loaded again. *)
Lemma process_file_known (db : Database) (files : list str)
  (ui : list widget) (file : UploadedFile) :
  existsb (str_eqb (name file)) files = true ->
  process_file (db, files, ui) file = (db, files, ui).
Proof. intros H; unfold process_file; now rewrite H. Qed.

(** A file whose name is new is loaded; when the load returns a table
    name that is not empty, the name of the file joins the list. *)
Lemma process_file_loaded (db db' : Database) (files : list str)
  (ui : list widget) (file : UploadedFile) (t : str) :
  existsb (str_eqb (name file)) files = false ->
  load_data_to_db file db = (db', (Some t, None)) ->
  truthy t = true ->
  process_file (db, files, ui) file
  = (db', files ++ [name file],
     ui ++ [st_toast (py "Table '" ++ t ++ py "' created!")]).
Proof.
  intros Hnew Hload Ht; unfold process_file.
  rewrite Hnew, Hload; cbn [truthy_opt fmt]; now rewrite Ht.
Qed.

(** A load that fails is reported and the name of the file stays out of
    the list. *)
Lemma process_file_failed (db db' : Database) (files : list str)
  (ui : list widget) (file : UploadedFile) (e : str) :
  existsb (str_eqb (name file)) files = false ->
  load_data_to_db file db = (db', (None, Some e)) ->
  process_file (db, files, ui) file
  = (db', files, ui ++ [st_error (py "Error: " ++ e)]).
Proof.
  intros Hnew Hload; unfold process_file.
  now rewrite Hnew, Hload.
Qed.

(* ================================================================== *)
(** * The schema view and the clear handler *)
(* ================================================================== *)

Lemma script_clear (fs : list UploadedFile) (btn : bool) (q : str)
  (s : SessionState) :
  fst (script {| uploaded_files := fs; clear_clicked := true;
                 run_btn := btn; query := q |} s)
  = {| db_conn := None; uploaded_files_list := Some [] |}.
Proof.
  unfold script; cbn [uploaded_files clear_clicked].
  destruct (process_files fs _) as [[db files] ui]; reflexivity.
Qed.

(** C7. On a session that has not run yet the connection is opened on an
    empty database: the schema mapping is empty and the viewer shows its
    "No tables found" note, not an error.  A run of the script in which
    "Clear Database" is clicked leaves a session whose connection, once
    reopened, is again on an empty database, whatever tables the run
    found or loaded: the mapping is empty and the list of loaded file
    names is empty. *)
Theorem describe_after_reset (fs : list UploadedFile) (btn : bool)
  (q : str) (s : SessionState) :
  describe (connect new_session) = inr []
  /\ schema_view (connect new_session)
     = [st_info (py "No tables found. Upload a CSV to start.")]
  /\ let s' := fst (script {| uploaded_files := fs; clear_clicked := true;
                               run_btn := btn; query := q |} s) in
     s' = clear_database s
     /\ describe (connect s') = inr []
     /\ schema_view (connect s')
        = [st_info (py "No tables found. Upload a CSV to start.")]
     /\ files_list s' = [].
Proof.
  cbv zeta; rewrite script_clear; repeat split.
Qed.

(** The rerun that follows the click reads the uploader again: a file it
    still holds is loaded into the new database. *)
Lemma rerun_loads_held_file (file : UploadedFile) (db' : Database)
  (t : str) (s : SessionState) :
  load_data_to_db file [] = (db', (Some t, None)) ->
  truthy t = true ->
  db_conn (fst (script {| uploaded_files := [file]; clear_clicked := false;
                          run_btn := false; query := [] |}
                  (clear_database s)))
  = Some db'.
Proof.
  intros Hload Ht; unfold script.
  cbn [uploaded_files clear_clicked run_btn query process_files fold_left
         init_session clear_database connect files_list db_conn
         uploaded_files_list].
  rewrite (process_file_loaded [] db' [] [] file t) by auto.
  reflexivity.
Qed.

(* ================================================================== *)
(** * The query block *)
(* ================================================================== *)

(** The handler of line 237 adds nothing of its own: the database is the
    one the engine left, the box shows the message after the prefix. *)
Lemma run_query_exception (btn : bool) (q : str) (db db' : Database)
  (msg : str) :
  (btn || truthy q) = true ->
  read_sql_query q db = (db', inl msg) ->
  run_query btn q db = (db', [st_error (sql_error_prefix ++ msg)]).
Proof. intros Hrun He; unfold run_query; now rewrite Hrun, He. Qed.

(** C6 (amended). A query on which the engine raises does not stop the
    script: the query block shows one error box whose text is the fixed
    prefix followed by the message of the engine, character for
    character, and it adds no change of its own, so that the tables
    after the failed execution are those the engine left.  They are the
    tables from before when the engine raised without executing the
    statement (a SELECT on a table that does not exist); a statement
    that runs before the exception is raised leaves its change. *)
Theorem failing_query_handled (btn : bool) (q : str) (db db' : Database)
  (msg : str) :
  (btn || truthy q) = true ->
  read_sql_query q db = (db', inl msg) ->
  run_query btn q db = (db', [st_error (sql_error_prefix ++ msg)])
  /\ list_tables (fst (run_query btn q db))
     = list_tables (fst (read_sql_query q db))
  /\ (db' = db -> list_tables (fst (run_query btn q db)) = list_tables db).
Proof.
  intros Hrun He.
  rewrite (run_query_exception btn q db db' msg Hrun He), He; cbn [fst].
  repeat split. now intros ->.
Qed.

Lemma first_duplicate_none (l : list str) :
  first_duplicate l = None -> NoDup l.
Proof.
  induction l as [|c l IH]; simpl; [constructor|].
  destruct (existsb (str_eqb c) l) eqn:E; [discriminate|].
  intros H; constructor; [|now apply IH].
  intros Hin.
  assert (existsb (str_eqb c) l = true) as E'
      by (apply existsb_exists; exists c; split;
          [exact Hin | apply str_eqb_refl]).
  congruence.
Qed.

Lemma unique_columns_engine_sound (t : str) (df : DataFrame)
  (db : Database) :
  unique_columns_engine t df db = None -> NoDup (columns df).
Proof.
  unfold unique_columns_engine.
  destruct (first_duplicate (columns df)) eqn:E; [discriminate|].
  intros _; now apply first_duplicate_none.
Qed.

(* ================================================================== *)
(** * More on the table name *)
(* ================================================================== *)

Lemma split_no_sep (sep : char) (s : str) :
  ~ In sep s -> split sep s = [s].
Proof.
  induction s as [|c s IH]; simpl; [reflexivity|].
  intros H.
  destruct (char_eqb c sep) eqn:E.
  - apply char_eqb_eq in E; exfalso; apply H; left; exact E.
  - rewrite IH by (intros Hs; apply H; right; exact Hs); reflexivity.
Qed.

Lemma split_app_sep (sep : char) (stem tl : str) :
  ~ In sep stem -> split sep (stem ++ sep :: tl) = stem :: split sep tl.
Proof.
  induction stem as [|c stem IH]; simpl; intros H.
  - unfold char_eqb; now rewrite N.eqb_refl.
  - destruct (char_eqb c sep) eqn:E.
    + apply char_eqb_eq in E; exfalso; apply H; left; exact E.
    + rewrite IH by (intros Hs; apply H; right; exact Hs); reflexivity.
Qed.

Lemma table_name_no_period (stem : str) :
  ~ In PERIOD stem -> table_name stem = inr (filter keeps stem).
Proof.
  intros H; unfold table_name; rewrite (split_no_sep _ _ H); simpl.
  unfold ret; now rewrite join_comprehension.
Qed.

Lemma table_name_before_period (stem tl : str) :
  ~ In PERIOD stem ->
  table_name (stem ++ PERIOD :: tl) = inr (filter keeps stem).
Proof.
  intros H; unfold table_name; rewrite (split_app_sep _ _ _ H); simpl.
  unfold ret; now rewrite join_comprehension.
Qed.

Lemma keeps_period : keeps PERIOD = false.
Proof. reflexivity. Qed.

Lemma filter_keeps_no_period (s : str) : ~ In PERIOD (filter keeps s).
Proof.
  intros H; apply filter_In in H; destruct H as [_ H].
  rewrite keeps_period in H; discriminate.
Qed.

Lemma filter_idem {A : Type} (p : A -> bool) (l : list A) :
  filter p (filter p l) = filter p l.
Proof.
  rewrite filter_twice; apply filter_ext; intros x; apply andb_diag.
Qed.

(** X1. A table name is a fixed point of the rule that made it: taking
    the table name of a table name returns it unchanged. *)
Theorem table_name_idempotent (s : str) :
  exists t, table_name s = inr t /\ table_name t = inr t.
Proof.
  destruct (table_name_stem s) as (stem & Ht & _).
  exists (filter keeps stem); split; [exact Ht|].
  rewrite (table_name_no_period _ (filter_keeps_no_period stem)).
  now rewrite filter_idem.
Qed.

(** X2. Whatever follows the first period of a file name has no part in
    the table name: two names with the same text before it, and that
    text alone, get the same table name. *)
Theorem table_name_ignores_suffix (stem a b : str) :
  ~ In PERIOD stem ->
  table_name (stem ++ PERIOD :: a) = table_name (stem ++ PERIOD :: b)
  /\ table_name (stem ++ PERIOD :: a) = table_name stem.
Proof.
  intros H.
  rewrite !(table_name_before_period _ _ H), (table_name_no_period _ H).
  split; reflexivity.
Qed.

(* ================================================================== *)
(** * More on the column name *)
(* ================================================================== *)

Lemma dropwhile_head (p : char -> bool) (s : str) :
  match s with [] => True | c :: _ => p c = false end ->
  dropwhile p s = s.
Proof. destruct s as [|c s]; simpl; [reflexivity | now intros ->]. Qed.

Lemma strip_clean (s : str) :
  starts_with_space s = false ->
  starts_with_space (rev s) = false ->
  strip s = s.
Proof.
  intros Hl Hr; unfold strip, rstrip, lstrip.
  rewrite (dropwhile_head isspace s)
    by (destruct s; [exact I | exact Hl]).
  rewrite (dropwhile_head isspace (rev s))
    by (destruct (rev s); [exact I | exact Hr]).
  apply rev_involutive.
Qed.

Lemma one_pass_clean (l : str) :
  forallb (fun c => negb (is_separator c) && negb (is_paren c)) l = true ->
  filter (fun c => negb (is_paren c))
    (map (fun c => if is_separator c then UNDERSCORE else c) l)
  = l.
Proof.
  induction l as [|c l IH]; [reflexivity|].
  cbn [forallb map filter]; rewrite !andb_true_iff.
  intros [[H1 H2] Hl].
  apply negb_true_iff in H1; rewrite H1, H2, (IH Hl); reflexivity.
Qed.

(** X3. A header that neither starts nor ends with white space and holds
    no space, hyphen, period, slash or parenthesis is left as it is. *)
Theorem sanitize_column_clean (s : str) :
  starts_with_space s = false ->
  starts_with_space (rev s) = false ->
  forallb (fun c => negb (is_separator c) && negb (is_paren c)) s = true ->
  sanitize_column s = s.
Proof.
  intros Hl Hr Hc.
  rewrite sanitize_column_one_pass, (strip_clean s Hl Hr).
  now apply one_pass_clean.
Qed.




(* ================================================================== *)
(** * More on the store and the loader *)
(* ================================================================== *)

Lemma existsb_str_In (n : str) (l : list str) :
  existsb (str_eqb n) l = true <-> In n l.
Proof.
  rewrite existsb_exists; split.
  - intros (x & Hx & E); apply str_eqb_eq in E; now subst.
  - intros H; exists n; split; [exact H | apply str_eqb_refl].
Qed.

Lemma existsb_str_not_In (n : str) (l : list str) :
  existsb (str_eqb n) l = false <-> ~ In n l.
Proof.
  rewrite <- existsb_str_In; destruct (existsb (str_eqb n) l); split;
    intros H; try reflexivity; try discriminate; try (intros H'; discriminate).
  exfalso; apply H; reflexivity.
Qed.

Lemma list_tables_drop (t : str) (db : Database) :
  list_tables (drop_table t db)
  = filter (fun n => negb (str_eqb n t)) (list_tables db).
Proof.
  unfold list_tables, drop_table.
  induction db as [|e db IH]; simpl; [reflexivity|].
  destruct (str_eqb (fst e) t); simpl; now rewrite IH.
Qed.

Lemma list_tables_drop_not_In (t : str) (db : Database) :
  ~ In t (list_tables (drop_table t db)).
Proof.
  rewrite list_tables_drop; intros H.
  apply filter_In in H; destruct H as [_ H].
  rewrite str_eqb_refl in H; discriminate.
Qed.

Lemma NoDup_snoc {A : Type} (l : list A) (x : A) :
  NoDup l -> ~ In x l -> NoDup (l ++ [x]).
Proof.
  induction 1 as [|y l Hy Hl IH]; simpl; intros Hx.
  - constructor; [intros [] | constructor].
  - constructor.
    + intros H; apply in_app_or in H; destruct H as [H|[H|[]]].
      * exact (Hy H).
      * apply Hx; left; symmetry; exact H.
    + apply IH; intros H; apply Hx; right; exact H.
Qed.

Lemma load_names_distinct (file : UploadedFile) (db : Database) :
  NoDup (list_tables db) ->
  NoDup (list_tables (fst (load_data_to_db file db))).
Proof.
  intros Hdb.
  destruct (load_data_to_db_unfold file db) as (t & _ & ->).
  assert (Hdrop : NoDup (list_tables (drop_table t db)))
    by (rewrite list_tables_drop; now apply NoDup_filter).
  assert (Hnew : forall df,
             NoDup (list_tables (drop_table t db ++ [(t, df)]))).
  { intros df; unfold list_tables; rewrite map_app; cbn [map fst].
    apply NoDup_snoc; [exact Hdrop | apply list_tables_drop_not_In]. }
  destruct (read_csv (content file)) as [e|df]; [exact Hdb|].
  destruct (engine_rejects _ _ _); cbn [fst]; [|apply Hnew].
  destruct (refused_at _ _ _); [exact Hdb | exact Hdrop | apply Hnew].
Qed.

(** [process_file] either leaves the database or gives it to the
    loader. *)
Lemma process_file_db (st : Sidebar) (file : UploadedFile) :
  fst (fst (process_file st file)) = fst (fst st)
  \/ fst (fst (process_file st file))
     = fst (load_data_to_db file (fst (fst st))).
Proof.
  destruct st as [[db files] ui]; unfold process_file; cbn [fst].
  destruct (existsb _ files); [left; reflexivity|].
  destruct (load_data_to_db file db) as [db' [t_name error]].
  destruct (truthy_opt t_name); right; reflexivity.
Qed.

(** X4. The upload loop keeps the names of the tables pairwise
    distinct: starting from a database without two tables of one name,
    no sequence of uploads produces one, whether a file is skipped,
    loaded, or refused before the drop, at the creation of its table or
    while its rows are inserted. *)
Theorem process_files_names_distinct (fs : list UploadedFile)
  (st : Sidebar) :
  NoDup (list_tables (fst (fst st))) ->
  NoDup (list_tables (fst (fst (process_files fs st)))).
Proof.
  revert st; induction fs as [|f fs IH]; intros st H; [exact H|].
  apply IH.
  destruct (process_file_db st f) as [-> | ->];
    [exact H | now apply load_names_distinct].
Qed.

(** X5. A successful load lists its table last: the names of the other
    tables keep their order, and a table that is replaced moves from its
    place to the end of the schema. *)
Theorem load_lists_table_last (file : UploadedFile) (db db' : Database)
  (t : str) :
  load_data_to_db file db = (db', (Some t, None)) ->
  list_tables db'
  = filter (fun n => negb (str_eqb n t)) (list_tables db) ++ [t].
Proof.
  destruct (load_data_to_db_unfold file db) as (t0 & _ & ->).
  destruct (read_csv (content file)) as [e|df]; [discriminate|].
  destruct (engine_rejects _ _ _); [discriminate|].
  intros H; inversion H; subst.
  unfold list_tables at 1; rewrite map_app; cbn [map fst].
  f_equal; apply list_tables_drop.
Qed.

(** X6. Two files whose names agree up to the first period are one
    table: when both loads succeed they return the same table name, and
    after the second the database holds one table of that name, made of
    the second file; every other table is as it was before the first. *)
Theorem load_same_stem_overwrites (f1 f2 : UploadedFile) (stem a b : str)
  (db db1 db2 : Database) (t1 t2 : str) :
  ~ In PERIOD stem ->
  name f1 = stem ++ PERIOD :: a ->
  name f2 = stem ++ PERIOD :: b ->
  load_data_to_db f1 db = (db1, (Some t1, None)) ->
  load_data_to_db f2 db1 = (db2, (Some t2, None)) ->
  t1 = t2
  /\ count_tables t2 db2 = 1%nat
  /\ (exists df2,
         read_csv (content f2) = inr df2
         /\ lookup_table t2 db2 = Some (sanitize_column_names df2))
  /\ forall t', t' <> t2 -> lookup_table t' db2 = lookup_table t' db.
Proof.
  intros Hstem Hn1 Hn2.
  destruct (load_data_to_db_unfold f1 db) as (u1 & Hu1 & ->).
  destruct (load_data_to_db_unfold f2 db1) as (u2 & Hu2 & ->).
  rewrite Hn1, (table_name_before_period _ _ Hstem) in Hu1.
  rewrite Hn2, (table_name_before_period _ _ Hstem) in Hu2.
  destruct (read_csv (content f1)) as [e|df1]; [discriminate|].
  destruct (engine_rejects _ _ _); [discriminate|].
  intros H1; inversion H1; subst db1 t1; clear H1.
  destruct (read_csv (content f2)) as [e|df2]; [discriminate|].
  destruct (engine_rejects _ _ _); [discriminate|].
  intros H2; inversion H2; subst db2 t2; clear H2.
  assert (u1 = u2) as -> by congruence.
  split; [reflexivity|].
  destruct (replace_table u2 (sanitize_column_names df2)
              (drop_table u2 db ++ [(u2, sanitize_column_names df1)]))
    as (Hc & Hl & Ho).
  split; [exact Hc|]. split; [exists df2; auto|].
  intros t' Hne.
  rewrite (proj2 (Ho t' Hne)).
  exact (proj2 (proj2 (proj2 (replace_table u2 _ db)) t' Hne)).
Qed.

(* ================================================================== *)
(** * More on the upload loop *)
(* ================================================================== *)

(** The list after one turn: as it was, or with the name of the file,
    which it did not hold, at its end. *)
Lemma process_file_list (st : Sidebar) (file : UploadedFile) :
  snd (fst (process_file st file)) = snd (fst st)
  \/ (~ In (name file) (snd (fst st))
      /\ snd (fst (process_file st file)) = snd (fst st) ++ [name file]).
Proof.
  destruct st as [[db files] ui]; unfold process_file; cbn [fst snd].
  destruct (existsb _ files) eqn:E; [left; reflexivity|].
  apply existsb_str_not_In in E.
  destruct (load_data_to_db file db) as [db' [t_name error]].
  destruct (truthy_opt t_name); [right; split; [exact E | reflexivity]
                                | left; reflexivity].
Qed.

(** X7. A rerun with uploads that are all in the list changes nothing:
    no file is parsed, the database, the list and the widgets are as
    they were. *)
Theorem process_files_all_known (fs : list UploadedFile) (st : Sidebar) :
  (forall f, In f fs -> In (name f) (snd (fst st))) ->
  process_files fs st = st.
Proof.
  revert st; induction fs as [|f fs IH]; intros st H; [reflexivity|].
  destruct st as [[db files] ui]; cbn [snd fst] in H.
  unfold process_files; cbn [fold_left].
  rewrite process_file_known
    by (apply existsb_str_In; apply H; left; reflexivity).
  apply IH; intros f' Hf'; apply H; right; exact Hf'.
Qed.

Lemma process_files_nodup (fs : list UploadedFile) (st : Sidebar) :
  NoDup (snd (fst st)) ->
  NoDup (snd (fst (process_files fs st))).
Proof.
  revert st; induction fs as [|f fs IH]; intros st H; [exact H|].
  apply IH.
  destruct (process_file_list st f) as [-> | [Hn ->]];
    [exact H | now apply NoDup_snoc].
Qed.

(** X8. The list of loaded file names never holds a name twice: the
    loop keeps it free of repetitions. *)
Theorem process_files_list_nodup (fs : list UploadedFile) (st : Sidebar) :
  NoDup (snd (fst st)) ->
  NoDup (snd (fst (process_files fs st))).
Proof. apply process_files_nodup. Qed.

(** X9. The loop only appends to the list, and only names of uploaded
    files that were not in it. *)
Theorem process_files_list_grows (fs : list UploadedFile) (st : Sidebar) :
  exists added,
    snd (fst (process_files fs st)) = snd (fst st) ++ added
    /\ Forall (fun n => (exists f, In f fs /\ name f = n)
                        /\ ~ In n (snd (fst st))) added.
Proof.
  revert st; induction fs as [|f fs IH]; intros st.
  - exists []; split; [symmetry; apply app_nil_r | constructor].
  - destruct (IH (process_file st f)) as (added & Hl & Ha).
    unfold process_files in *; cbn [fold_left]; rewrite Hl.
    destruct (process_file_list st f) as [E | [Hn E]]; rewrite E.
    + exists added; split; [reflexivity|].
      eapply Forall_impl; [|exact Ha].
      intros n [(f' & Hf' & En) Hnn]; rewrite E in Hnn; split; [|exact Hnn].
      exists f'; split; [right; exact Hf' | exact En].
    + exists (name f :: added); split; [now rewrite <- app_assoc|].
      constructor.
      * split; [exists f; split; [left|]; reflexivity | exact Hn].
      * eapply Forall_impl; [|exact Ha].
        intros n [(f' & Hf' & En) Hnn]; rewrite E in Hnn; split.
        -- exists f'; split; [right; exact Hf' | exact En].
        -- intros Hin; apply Hnn; apply in_or_app; left; exact Hin.
Qed.

Lemma process_file_new (db : Database) (files : list str)
  (ui : list widget) (file : UploadedFile) :
  ~ In (name file) files ->
  fst (fst (process_file (db, files, ui) file))
  = fst (load_data_to_db file db).
Proof.
  intros Hn; apply existsb_str_not_In in Hn.
  unfold process_file; rewrite Hn.
  destruct (load_data_to_db file db) as [db' [t_name error]].
  destruct (truthy_opt t_name); reflexivity.
Qed.

Lemma process_files_loads (fs : list UploadedFile) (st : Sidebar) :
  NoDup (map name fs) ->
  (forall f, In f fs -> ~ In (name f) (snd (fst st))) ->
  fst (fst (process_files fs st)) = load_all fs (fst (fst st)).
Proof.
  revert st; induction fs as [|f fs IH]; intros st Hnd Hnew;
    [reflexivity|].
  inversion Hnd as [|n ns Hn Hns]; subst.
  unfold process_files, load_all in *; cbn [fold_left].
  rewrite IH.
  - destruct st as [[db files] ui]; cbn [fst snd] in *.
    rewrite process_file_new by (apply Hnew; left; reflexivity).
    reflexivity.
  - exact Hns.
  - intros f' Hf' Hin.
    destruct (process_file_list st f) as [E | [_ E]]; rewrite E in Hin.
    + apply (Hnew f'); [right; exact Hf' | exact Hin].
    + apply in_app_or in Hin; destruct Hin as [Hin|[Hin|[]]].
      * apply (Hnew f'); [right; exact Hf' | exact Hin].
      * apply Hn; rewrite Hin; apply in_map; exact Hf'.
Qed.

(** X10. Uploads with pairwise distinct names, none of them in the
    list, are all handed to the loader, in order: the database after the
    loop is the one that loading them one after the other gives, whether
    the loads succeed or fail. *)
Theorem process_files_loads_all (fs : list UploadedFile) (st : Sidebar) :
  NoDup (map name fs) ->
  (forall f, In f fs -> ~ In (name f) (snd (fst st))) ->
  fst (fst (process_files fs st)) = load_all fs (fst (fst st)).
Proof. apply process_files_loads. Qed.

(* ================================================================== *)
(** * More on the schema view *)
(* ================================================================== *)

Lemma lookup_table_In (t : str) (df : DataFrame) (db : Database) :
  NoDup (list_tables db) -> In (t, df) db -> lookup_table t db = Some df.
Proof.
  unfold list_tables, lookup_table.
  induction db as [|e db IH]; simpl; intros Hnd Hin; [contradiction|].
  inversion Hnd as [|n ns Hn Hns]; subst.
  destruct Hin as [-> | Hin]; simpl.
  - now rewrite str_eqb_refl.
  - assert (str_eqb (fst e) t = false) as ->.
    { apply str_eqb_neq; intros E; apply Hn; rewrite E.
      change t with (fst (t, df)); now apply in_map. }
    now apply IH.
Qed.

Lemma describe_tables_accepting (l db : Database) :
  (forall e, In e l -> lookup_table (fst e) db = Some (snd e)) ->
  (forall e, In e l -> pragma_rejects (fst e) = None) ->
  describe_tables (map fst l) db = inr (map table_schema l).
Proof.
  induction l as [|e l IH]; intros Hl Hp; [reflexivity|].
  cbn [map describe_tables]; unfold table_info.
  rewrite (Hp e (or_introl eq_refl)), (Hl e (or_introl eq_refl)).
  cbn; rewrite IH; [reflexivity | |];
    intros e' He'; [apply Hl | apply Hp]; right; exact He'.
Qed.

Lemma describe_accepting (db : Database) :
  NoDup (list_tables db) ->
  (forall t, In t (list_tables db) -> pragma_rejects t = None) ->
  describe db = inr (map table_schema db).
Proof.
  intros Hnd Hp; unfold describe, list_tables.
  apply describe_tables_accepting.
  - intros [t df] He; now apply lookup_table_In.
  - intros e He; apply Hp; unfold list_tables; now apply in_map.
Qed.

(** X11. With pairwise distinct table names and no table whose
    [PRAGMA] is refused, the mapping of the schema viewer is the stored
    tables themselves: one entry per table, in the order of the schema,
    with the column names of the table paired with its column types. *)
Theorem describe_projection (db : Database) :
  NoDup (list_tables db) ->
  (forall t, In t (list_tables db) -> pragma_rejects t = None) ->
  describe db = inr (map table_schema db).
Proof. apply describe_accepting. Qed.

(** X12. After a successful load the schema viewer lists the table of
    the file last, with the sanitized headers of the file as its column
    names, after the other tables. *)
Theorem describe_after_load (file : UploadedFile) (db db' : Database)
  (t : str) (df : DataFrame) :
  NoDup (list_tables db) ->
  load_data_to_db file db = (db', (Some t, None)) ->
  read_csv (content file) = inr df ->
  (forall t', In t' (list_tables db') -> pragma_rejects t' = None) ->
  describe db'
  = inr (map table_schema (drop_table t db)
         ++ [(t, combine (map sanitize_column (columns df)) (dtypes df))]).
Proof.
  intros Hnd Hload Hcsv Hp.
  pose proof (load_names_distinct file db Hnd) as Hnd'.
  rewrite Hload in Hnd'; cbn [fst] in Hnd'.
  rewrite (describe_accepting db' Hnd' Hp).
  destruct (load_data_to_db_unfold file db) as (t0 & _ & E).
  rewrite Hload, Hcsv in E.
  destruct (engine_rejects _ _ _); [discriminate|].
  inversion E; subst; now rewrite map_app.
Qed.

Lemma schema_expanders_ok (ts : list str) (db : Database)
  (m : list (str * list (str * dtype))) :
  describe_tables ts db = inr m ->
  schema_expanders ts db = map expander_of m /\ map fst m = ts.
Proof.
  revert m; induction ts as [|t ts IH]; intros m; cbn.
  - intros H; inversion H; split; reflexivity.
  - destruct (table_info t db) as [e|schema]; [discriminate|].
    destruct (describe_tables ts db) as [e|rest]; [discriminate|].
    intros H; inversion H; subst; cbn.
    destruct (IH rest eq_refl) as [-> ->]; split; reflexivity.
Qed.

(** X13. When the mapping is computed without an exception, the viewer
    shows it entry by entry: one expander per table, titled with the
    name of the table and holding its columns, and the "No tables found"
    note when the mapping is empty. *)
Theorem schema_view_of_describe (db : Database)
  (m : list (str * list (str * dtype))) :
  describe db = inr m ->
  schema_view db
  = match m with
    | [] => [st_info (py "No tables found. Upload a CSV to start.")]
    | _ :: _ => map expander_of m
    end.
Proof.
  unfold describe, schema_view; intros H.
  destruct (schema_expanders_ok _ _ _ H) as [He Hm].
  destruct (list_tables db) as [|t ts] eqn:E.
  - destruct m; [reflexivity | discriminate].
  - destruct m; [discriminate | exact He].
Qed.

Lemma describe_tables_refused (a : Database) (t : str) (rest : list str)
  (db : Database) (e : str) :
  (forall x, In x a -> lookup_table (fst x) db = Some (snd x)) ->
  (forall x, In x a -> pragma_rejects (fst x) = None) ->
  pragma_rejects t = Some e ->
  describe_tables (map fst a ++ t :: rest) db = inl e
  /\ schema_expanders (map fst a ++ t :: rest) db
     = map expander_of (map table_schema a)
       ++ [st_expander_open (py "Table: " ++ t);
           st_error (py "DB Error: " ++ e)].
Proof.
  intros Hl Hp He; induction a as [|x a IH].
  - cbn; unfold table_info; rewrite He; split; reflexivity.
  - assert (Hx : table_info (fst x) db = inr (snd (table_schema x))).
    { unfold table_info.
      now rewrite (Hp x (or_introl eq_refl)), (Hl x (or_introl eq_refl)). }
    cbn [map app describe_tables schema_expanders]; rewrite Hx.
    destruct IH as [-> ->];
      try (intros y Hy; first [apply Hl | apply Hp]; right; exact Hy).
    split; reflexivity.
Qed.

(** X14. A table whose [PRAGMA] is refused ends the schema view: the
    tables listed before it get their expanders, the expander of the
    refused table is shown without content, the message of the refusal
    follows in a "DB Error" box, and the tables listed after it are not
    shown; the mapping itself is lost to the exception. *)
Theorem describe_first_refusal (a b : Database) (t : str)
  (df : DataFrame) (e : str) :
  NoDup (list_tables (a ++ (t, df) :: b)) ->
  (forall x, In x a -> pragma_rejects (fst x) = None) ->
  pragma_rejects t = Some e ->
  describe (a ++ (t, df) :: b) = inl e
  /\ schema_view (a ++ (t, df) :: b)
     = map expander_of (map table_schema a)
       ++ [st_expander_open (py "Table: " ++ t);
           st_error (py "DB Error: " ++ e)].
Proof.
  intros Hnd Hp He.
  assert (Hl : forall x, In x a ->
                 lookup_table (fst x) (a ++ (t, df) :: b) = Some (snd x)).
  { intros [n d] Hx; apply lookup_table_In; [exact Hnd|].
    apply in_or_app; left; exact Hx. }
  destruct (describe_tables_refused a t (map fst b) _ e Hl Hp He)
    as [Hd Hs].
  unfold describe, schema_view, list_tables.
  rewrite map_app; cbn [map fst]; split; [exact Hd|].
  rewrite <- Hs.
  destruct (map fst a ++ t :: map fst b) eqn:E; [|reflexivity].
  destruct (map fst a); discriminate.
Qed.

(* ================================================================== *)
(** * The SQL editor *)
(* ================================================================== *)

Lemma run_query_truthy (btn : bool) (q : str) (db : Database) :
  truthy q = true -> run_query btn q db = run_query true q db.
Proof.
  intros H; unfold run_query; rewrite H, orb_true_r; reflexivity.
Qed.

Lemma default_query_truthy (files : list str) (db : Database) :
  truthy (default_query files db) = true.
Proof.
  unfold default_query.
  destruct (Nat.ltb 0 (List.length files)); [|reflexivity].
  destruct (list_tables db); reflexivity.
Qed.

(** X15. The editor never starts empty, so a run in which nothing was
    typed executes the default query whether or not the button was
    pressed.  The default asks for the first ten rows of the table that
    the schema lists first as soon as a file is in the list and the
    database has a table, and is the query on [sqlite_master] in every
    other case. *)
Theorem default_query_runs (btn : bool) (files : list str)
  (db : Database) :
  truthy (default_query files db) = true
  /\ main_area None btn files db
     = run_query true (default_query files db) db
  /\ default_query files db
     = match files, list_tables db with
       | _ :: _, t :: _ => py "SELECT * FROM " ++ t ++ py " LIMIT 10;"
       | _, _ => generic_query
       end.
Proof.
  split; [apply default_query_truthy|].
  split; [apply run_query_truthy, default_query_truthy|].
  unfold default_query.
  destruct files as [|f files]; [reflexivity|].
  destruct (list_tables db) as [|t ts]; reflexivity.
Qed.

(* ================================================================== *)
(** * The quick plotter *)
(* ================================================================== *)

Lemma quick_plot_defined (sel : PlotChoice) :
  (exists fig, quick_plot sel = inr fig) <-> In (chart_type sel) chart_types.
Proof.
  destruct sel as [ct x y c]; unfold quick_plot, chart_types;
    cbn [chart_type x_col y_col color_col]; split.
  - intros [fig H].
    destruct (str_eqb ct (py "Bar")) eqn:E1;
      [apply str_eqb_eq in E1; subst; cbn; auto|].
    destruct (str_eqb ct (py "Line")) eqn:E2;
      [apply str_eqb_eq in E2; subst; cbn; auto|].
    destruct (str_eqb ct (py "Scatter")) eqn:E3;
      [apply str_eqb_eq in E3; subst; cbn; auto|].
    destruct (str_eqb ct (py "Pie")) eqn:E4;
      [apply str_eqb_eq in E4; subst; cbn; auto 6|].
    destruct (str_eqb ct (py "Histogram")) eqn:E5;
      [apply str_eqb_eq in E5; subst; cbn; auto 6|].
    discriminate.
  - intros [<-|[<-|[<-|[<-|[<-|[]]]]]]; eexists; reflexivity.
Qed.

(** X16. The second tab never fails on an unbound figure: for a result
    without rows or without columns it shows its note, for any other
    result and each of the five chart types offered one of the branches
    builds the figure; only a chart type that is not offered would leave
    [fig] unbound. *)
Theorem visualization_defined (results_df : DataFrame) (sel : PlotChoice) :
  (exists shown, visualization results_df sel = inr shown)
  <-> (empty results_df = true \/ In (chart_type sel) chart_types).
Proof.
  unfold visualization.
  destruct (empty results_df); cbn [negb].
  - split; [left; reflexivity | eexists; reflexivity].
  - rewrite <- quick_plot_defined; split.
    + intros [shown H]; right.
      destruct (quick_plot sel) as [e|fig]; [discriminate | eauto].
    + intros [H|[fig ->]]; [discriminate | eexists; reflexivity].
Qed.

(** X17. The colour group handed to plotly is a column of the result
    and never one named [None]: the entry "None" of the box stands for
    no colour, so a column of that name cannot be picked as colour. *)
Theorem quick_plot_color (cols : list str) (sel : PlotChoice)
  (fig : figure) (c : str) :
  In (color_col sel) (color_options cols) ->
  quick_plot sel = inr fig ->
  figure_color fig = Some c ->
  c = color_col sel /\ In c cols /\ c <> py "None".
Proof.
  intros Hin Hfig Hc.
  assert (Hopt : color_opt (color_col sel) = Some c).
  { unfold quick_plot in Hfig.
    repeat match type of Hfig with
           | (if ?b then _ else _) = _ =>
               destruct b; [inversion Hfig; subst fig; cbn in Hc;
                            first [exact Hc | discriminate]|]
           end.
    discriminate. }
  unfold color_opt in Hopt.
  destruct (str_eqb (color_col sel) (py "None")) eqn:E; [discriminate|].
  inversion Hopt; subst c. apply str_eqb_neq in E.
  split; [reflexivity|]. split; [|exact E].
  destruct Hin as [Hin|Hin]; [congruence | exact Hin].
Qed.

(** X18. Where the plotter is drawn the preselected index of the
    "Y Axis" box is an index of the list of columns: the result is not
    empty there, so it has a column. *)
Theorem y_idx_in_bounds (results_df : DataFrame) :
  empty results_df = false ->
  (y_idx (columns results_df) < List.length (columns results_df))%nat.
Proof.
  unfold empty, y_idx.
  destruct (columns results_df) as [|x [|y cols]];
    [discriminate | |]; intros _; cbn; lia.
Qed.

(* ================================================================== *)
(** * Runs of the script *)
(* ================================================================== *)

(** X19. After "Clear Database" the rerun builds the database anew from
    the uploader: uploads with pairwise distinct names are all loaded
    again, in order, into the empty database, before anything else
    happens.  The schema viewer of that run shows the database so
    rebuilt, and the query of that run, if there is one, is executed on
    it. *)
Theorem clear_then_rerun_reloads (fs : list UploadedFile) (btn : bool)
  (q : str) (s : SessionState) :
  NoDup (map name fs) ->
  exists ui,
    script {| uploaded_files := fs; clear_clicked := false;
              run_btn := btn; query := q |} (clear_database s)
    = ({| db_conn := Some (fst (run_query btn q (load_all fs [])));
          uploaded_files_list
          := Some (snd (fst (process_files fs ([], [], [])))) |},
       (ui ++ schema_view (load_all fs []))
       ++ snd (run_query btn q (load_all fs []))).
Proof.
  intros Hnd; unfold script.
  cbn [uploaded_files clear_clicked run_btn query init_session
         clear_database connect files_list db_conn uploaded_files_list].
  destruct (process_files fs _) as [[db files] ui] eqn:E.
  assert (db = load_all fs []) as ->.
  { change db with (fst (fst (db, files, ui))); rewrite <- E.
    exact (process_files_loads fs ([], [], []) Hnd (fun f _ H => H)). }
  exists ui; cbn [fst snd].
  destruct (run_query btn q (load_all fs [])) as [db' ui']; reflexivity.
Qed.

(** X20. Every run leaves a session with its list of file names set and
    free of repetitions when it was before, and with its connection
    removed exactly when "Clear Database" was clicked. *)
Theorem script_session (inp : Inputs) (s : SessionState) :
  NoDup (files_list s) ->
  NoDup (files_list (fst (script inp s)))
  /\ uploaded_files_list (fst (script inp s)) <> None
  /\ (db_conn (fst (script inp s)) = None <-> clear_clicked inp = true).
Proof.
  intros Hnd; unfold script.
  pose proof (process_files_nodup (uploaded_files inp)
                (connect (init_session s), files_list (init_session s), [])
                Hnd) as Hn.
  destruct (process_files _ _) as [[db files] ui]; cbn [fst snd] in Hn.
  destruct (clear_clicked inp).
  - cbn; repeat split; try constructor; try discriminate; auto.
  - destruct (run_query _ _ db) as [db' ui']; cbn.
    repeat split; try exact Hn; try discriminate.
Qed.

End QueryPlay.

(* ================================================================== *)
(** * Concrete runs *)
(* ================================================================== *)

(** The examples of the specification. *)
Example table_name_sales_data :
  table_name latin1_database (py "Sales Data.csv") = inr (py "SalesData").
Proof. reflexivity. Qed.

Example sanitize_column_order_date :
  sanitize_column (py "  Order Date (USD) ") = py "Order_Date_USD".
Proof. reflexivity. Qed.

(** Two headers that differ in a separator get the same column name. *)
Example sanitize_column_collision :
  py "a b" <> py "a-b"
  /\ sanitize_column (py "a b") = sanitize_column (py "a-b").
Proof. split; [discriminate | reflexivity]. Qed.

(** With such headers the frame is refused by an engine that wants its
    column names distinct, and the load reports the refusal. *)
Example load_colliding_headers :
  load_data_to_db N str latin1_database
    (parser_of N str {| columns := [py "a b"; py "a-b"];
                        dtypes := [py "INTEGER"; py "INTEGER"];
                        rows := [[1; 2]] |})
    (unique_columns_engine N str) (refused_at_create N str)
    {| name := py "t.csv"; content := [Byte.x61] |} []
  = ([], (None, Some (py "duplicate column name: a_b"))).
Proof. reflexivity. Qed.

(** The empty file: the parser raises, the load returns the message. *)
Example load_empty_file :
  load_data_to_db N str latin1_database
    (parser_of N str {| columns := []; dtypes := []; rows := [] |})
    (unique_columns_engine N str) (refused_at_create N str)
    {| name := py "orders.csv"; content := [] |} []
  = ([], (None, Some (py "No columns to parse from file"))).
Proof. reflexivity. Qed.

(** A header that is only parentheses becomes the empty column name,
    which pandas refuses before it drops anything: the table of the
    earlier upload stays. *)
Example load_refused_before_drop :
  let old := {| columns := [py "id"]; dtypes := [py "INTEGER"];
                rows := [[7]] |} in
  load_data_to_db N str latin1_database
    (parser_of N str {| columns := [py "()"; py "qty"];
                        dtypes := [py "TEXT"; py "INTEGER"];
                        rows := [[1; 2]] |})
    (fun _ df _ =>
       if existsb (fun c => negb (truthy c)) (columns N str df)
       then Some (py "Empty table or column name specified") else None)
    (fun _ _ _ => before_drop)
    {| name := py "orders.csv"; content := [Byte.x4f] |}
    [(py "orders", old)]
  = ([(py "orders", old)],
     (None, Some (py "Empty table or column name specified"))).
Proof. reflexivity. Qed.

(** A row that SQLite cannot store fails the insert: the old table is
    gone and the new one is there without rows. *)
Example load_refused_at_insert :
  let old := {| columns := [py "id"]; dtypes := [py "INTEGER"];
                rows := [[7]] |} in
  load_data_to_db N str latin1_database
    (parser_of N str {| columns := [py "qty"]; dtypes := [py "INTEGER"];
                        rows := [[18446744073709551616]] |})
    (fun _ _ _ =>
       Some (py "Python int too large to convert to SQLite INTEGER"))
    (fun _ _ _ => at_insert)
    {| name := py "orders.csv"; content := [Byte.x4f] |}
    [(py "orders", old)]
  = ([(py "orders", {| columns := [py "qty"]; dtypes := [py "INTEGER"];
                       rows := [] |})],
     (None,
      Some (py "Python int too large to convert to SQLite INTEGER"))).
Proof. reflexivity. Qed.

(** C2, counterexample: for [my.data.csv] the code keeps [my], the text
    before the first period; the rule of the specification keeps
    [mydata], the text before the final one. *)
Lemma table_name_final_period_counterexample :
  table_name latin1_database (py "my.data.csv") = inr (py "my")
  /\ spec_table_name latin1_database (py "my.data.csv") = py "mydata"
  /\ table_name latin1_database (py "my.data.csv")
     <> inr (spec_table_name latin1_database (py "my.data.csv")).
Proof. repeat split; vm_compute; discriminate. Qed.

(** C3, counterexample: U+00E9 (e with acute accent) is alphanumeric for
    [str.isalnum]; it stays in the table name of [caf<U+00E9>.csv] and is
    not in [[A-Za-z0-9_]]. *)
Lemma table_name_ascii_counterexample :
  exists t,
    table_name latin1_database (py "caf" ++ [233] ++ py ".csv") = inr t
    /\ forallb ascii_word_char t = false.
Proof. exists (py "caf" ++ [233]); split; reflexivity. Qed.

(** Witness of [load_replaces_table]: [orders.csv] is loaded into a
    database that holds a table [orders] already. *)
Lemma load_replaces_table_witness :
  let parsed := {| columns := [py "Order Date"; py "Amount"];
                   dtypes := [py "TEXT"; py "INTEGER"];
                   rows := [[20240101; 10]; [20240102; 20]] |} in
  let stored := {| columns := [py "Order_Date"; py "Amount"];
                   dtypes := [py "TEXT"; py "INTEGER"];
                   rows := [[20240101; 10]; [20240102; 20]] |} in
  let before := [(py "orders", {| columns := [py "id"];
                                  dtypes := [py "INTEGER"];
                                  rows := [[7]] |})] in
  let file := {| name := py "orders.csv"; content := [Byte.x4f] |} in
  load_data_to_db N str latin1_database (parser_of N str parsed)
    (unique_columns_engine N str) (refused_at_create N str) file before
  = ([(py "orders", stored)], (Some (py "orders"), None))
  /\ exists df,
      parser_of N str parsed (content file) = inr df
      /\ table_name latin1_database (name file) = inr (py "orders")
      /\ count_tables N str (py "orders") [(py "orders", stored)] = 1%nat
      /\ lookup_table N str (py "orders") [(py "orders", stored)]
         = Some (sanitize_column_names N str df)
      /\ forall t', t' <> py "orders" ->
           count_tables N str t' [(py "orders", stored)]
           = count_tables N str t' before
           /\ lookup_table N str t' [(py "orders", stored)]
              = lookup_table N str t' before.
Proof.
  cbv zeta; split; [reflexivity|].
  apply (load_replaces_table N str latin1_database _
           (unique_columns_engine N str) (refused_at_create N str)).
  reflexivity.
Defined.

(** C6, counterexample: [DROP TABLE orders] is executed before the
    fetch of its rows raises; the query block shows the error box, and
    the table is gone. *)
Lemma failing_query_counterexample :
  let db := [(py "orders", {| columns := [py "Order_Date"; py "Amount"];
                              dtypes := [py "TEXT"; py "INTEGER"];
                              rows := [[20240101; 10]] |})] in
  let q := py "DROP TABLE orders" in
  run_query N str (drop_table_engine N str) (plain_present N str)
    true q db
  = ([], [st_error N str
            (sql_error_prefix ++ py "'NoneType' object is not iterable")])
  /\ list_tables N str
       (fst (run_query N str (drop_table_engine N str)
               (plain_present N str) true q db))
     <> list_tables N str db.
Proof. cbv zeta; split; [reflexivity | vm_compute; discriminate]. Qed.

(** Witness of [failing_query_handled]: a SELECT from a table that does
    not exist, on a database with one table. *)
Lemma failing_query_handled_witness :
  let db := [(py "orders", {| columns := [py "Order_Date"; py "Amount"];
                              dtypes := [py "TEXT"; py "INTEGER"];
                              rows := [[20240101; 10]] |})] in
  let q := py "SELECT * FROM nonexistent" in
  run_query N str (no_such_table_engine N str) (plain_present N str)
    true q db
  = (db, [st_error N str
            (sql_error_prefix ++ py "no such table: nonexistent")])
  /\ list_tables N str
       (fst (run_query N str (no_such_table_engine N str)
               (plain_present N str) true q db))
     = list_tables N str
         (fst (no_such_table_engine N str q db))
  /\ (db = db ->
      list_tables N str
        (fst (run_query N str (no_such_table_engine N str)
                (plain_present N str) true q db))
      = list_tables N str db).
Proof.
  cbv zeta.
  apply (failing_query_handled N str (no_such_table_engine N str)
           (plain_present N str) true);
    reflexivity.
Defined.



(* ================================================================== *)
(** * More concrete runs *)
(* ================================================================== *)

Section Runs.

(** Two parsed files and the tables they are stored as. *)
Let sales_2023 : DataFrame N str :=
  {| columns := [py "Order Date"; py "Amount"];
     dtypes := [py "TEXT"; py "INTEGER"];
     rows := [[20230101; 10]; [20230102; 20]] |}.

Let sales_2024 : DataFrame N str :=
  {| columns := [py "Order Date"; py "Amount (USD)"];
     dtypes := [py "TEXT"; py "REAL"];
     rows := [[20240101; 30]] |}.

Let stock : DataFrame N str :=
  {| columns := [py "item"; py "qty"];
     dtypes := [py "TEXT"; py "INTEGER"];
     rows := [[1; 5]] |}.

Let file_2023 : UploadedFile :=
  {| name := py "sales.2023.csv"; content := [Byte.x31] |}.

Let file_2024 : UploadedFile :=
  {| name := py "sales.2024.csv"; content := [Byte.x32] |}.

Let parse := parser_of_two N str sales_2023 sales_2024.
Let engine := unique_columns_engine N str.
Let stage := refused_at_create N str.
Let load := load_data_to_db N str latin1_database parse engine stage.
Let loop := process_files N str latin1_database parse engine stage.
Let run :=
  script N str latin1_database parse engine stage lenient_pragma
    (no_such_table_engine N str) (plain_present N str).

(** Membership in a list of literals, refuted by computation. *)
Ltac not_in :=
  let H := fresh in
  intros H; cbv in H;
  repeat (destruct H as [H|H]; [discriminate H|]); exact H.

Ltac nodup := repeat (constructor; [not_in|]); constructor.

(** Witness of [table_name_ignores_suffix]. *)
Lemma table_name_ignores_suffix_witness :
  table_name latin1_database (py "sales" ++ PERIOD :: py "2023.csv")
  = table_name latin1_database (py "sales" ++ PERIOD :: py "2024.csv")
  /\ table_name latin1_database (py "sales" ++ PERIOD :: py "2023.csv")
     = table_name latin1_database (py "sales").
Proof. apply table_name_ignores_suffix; not_in. Defined.

(** Witness of [sanitize_column_clean]. *)
Lemma sanitize_column_clean_witness :
  sanitize_column (py "Order_Date") = py "Order_Date".
Proof. apply sanitize_column_clean; reflexivity. Defined.

(** Witness of [process_files_names_distinct]: the two sales files, then
    the first again. *)
Lemma process_files_names_distinct_witness :
  NoDup (list_tables N str
           (fst (fst (loop [file_2023; file_2024; file_2023]
                        ([], [], []))))).
Proof. apply process_files_names_distinct; constructor. Defined.

(** Witness of [load_lists_table_last]: [sales] is first in the schema
    and last after the file is loaded again. *)
Lemma load_lists_table_last_witness :
  list_tables N str
    [(py "stock", stock);
     (py "sales", sanitize_column_names N str sales_2024)]
  = filter (fun n => negb (str_eqb n (py "sales")))
      (list_tables N str [(py "sales", sales_2023); (py "stock", stock)])
    ++ [py "sales"].
Proof.
  apply (load_lists_table_last N str latin1_database parse engine stage
           file_2024).
  reflexivity.
Defined.

(** Witness of [load_same_stem_overwrites]: the sales of 2023, then
    those of 2024, into a database that holds the stock. *)
Lemma load_same_stem_overwrites_witness :
  let db2 := [(py "stock", stock);
              (py "sales", sanitize_column_names N str sales_2024)] in
  py "sales" = py "sales"
  /\ count_tables N str (py "sales") db2 = 1%nat
  /\ (exists df2,
         parse (content file_2024) = inr df2
         /\ lookup_table N str (py "sales") db2
            = Some (sanitize_column_names N str df2))
  /\ forall t', t' <> py "sales" ->
       lookup_table N str t' db2
       = lookup_table N str t' [(py "stock", stock)].
Proof.
  cbv zeta.
  apply (load_same_stem_overwrites N str latin1_database parse engine stage
           file_2023 file_2024 (py "sales") (py "2023.csv")
           (py "2024.csv") [(py "stock", stock)]
           [(py "stock", stock);
            (py "sales", sanitize_column_names N str sales_2023)]);
    [not_in | reflexivity ..].
Defined.

(** Witness of [process_files_all_known]. *)
Lemma process_files_all_known_witness :
  loop [file_2023; file_2023]
    ([(py "sales", stock)], [py "a.csv"; py "sales.2023.csv"], [])
  = ([(py "sales", stock)], [py "a.csv"; py "sales.2023.csv"], []).
Proof.
  apply process_files_all_known.
  intros f [<-|[<-|[]]]; right; left; reflexivity.
Defined.

(** Witness of [process_files_list_nodup]. *)
Lemma process_files_list_nodup_witness :
  NoDup (snd (fst (loop [file_2023; file_2024; file_2023]
                     ([], [py "a.csv"], [])))).
Proof. apply process_files_list_nodup; cbn [fst snd]; nodup. Defined.

(** Witness of [process_files_loads_all]. *)
Lemma process_files_loads_all_witness :
  fst (fst (loop [file_2023; file_2024] ([], [py "a.csv"], [])))
  = load_all N str latin1_database parse engine stage [file_2023; file_2024] [].
Proof.
  apply (process_files_loads_all N str latin1_database parse engine stage
           [file_2023; file_2024] ([], [py "a.csv"], [])).
  - cbn [map name file_2023 file_2024]; nodup.
  - intros f [<-|[<-|[]]]; cbn [fst snd]; not_in.
Defined.

(** Witness of [describe_projection]. *)
Lemma describe_projection_witness :
  describe N str lenient_pragma
    [(py "sales", sales_2023); (py "stock", stock)]
  = inr (map (table_schema N str)
           [(py "sales", sales_2023); (py "stock", stock)]).
Proof.
  apply describe_projection; [cbn; nodup | reflexivity].
Defined.

(** Witness of [describe_after_load]. *)
Lemma describe_after_load_witness :
  describe N str lenient_pragma
    [(py "stock", stock);
     (py "sales", sanitize_column_names N str sales_2024)]
  = inr (map (table_schema N str)
           (drop_table N str (py "sales")
              [(py "sales", sales_2023); (py "stock", stock)])
         ++ [(py "sales",
              combine (map sanitize_column (columns N str sales_2024))
                (dtypes N str sales_2024))]).
Proof.
  apply (describe_after_load N str latin1_database parse engine stage
           lenient_pragma file_2024
           [(py "sales", sales_2023); (py "stock", stock)]);
    [cbn; nodup | reflexivity | reflexivity | reflexivity].
Defined.

(** Witness of [schema_view_of_describe]. *)
Lemma schema_view_of_describe_witness :
  schema_view N str lenient_pragma [(py "stock", stock)]
  = map (expander_of N str) [table_schema N str (py "stock", stock)].
Proof.
  apply (schema_view_of_describe N str lenient_pragma
           [(py "stock", stock)]
           [table_schema N str (py "stock", stock)]).
  reflexivity.
Defined.

(** Witness of [describe_first_refusal]: a table [order] between two
    others. *)
Lemma describe_first_refusal_witness :
  let db := [(py "sales", sales_2023)]
            ++ (py "order", sales_2024) :: [(py "stock", stock)] in
  let e := py "near " ++ [34] ++ py "order" ++ [34]
           ++ py ": syntax error" in
  describe N str keyword_pragma db = inl e
  /\ schema_view N str keyword_pragma db
     = map (expander_of N str)
         (map (table_schema N str) [(py "sales", sales_2023)])
       ++ [st_expander_open N str (py "Table: " ++ py "order");
           st_error N str (py "DB Error: " ++ e)].
Proof.
  cbv zeta.
  apply describe_first_refusal;
    [cbn; nodup | intros x [<-|[]]; reflexivity | reflexivity].
Defined.

(** Witness of [quick_plot_color]. *)
Lemma quick_plot_color_witness :
  py "Region" = py "Region"
  /\ In (py "Region") [py "Region"; py "Amount"]
  /\ py "Region" <> py "None".
Proof.
  apply (quick_plot_color [py "Region"; py "Amount"]
           {| chart_type := py "Bar"; x_col := py "Region";
              y_col := py "Amount"; color_col := py "Region" |}
           (px_bar (py "Region") (py "Amount") (Some (py "Region"))));
    [right; left; reflexivity | reflexivity | reflexivity].
Defined.

(** Witness of [y_idx_in_bounds]. *)
Lemma y_idx_in_bounds_witness :
  (y_idx (columns N str stock) < List.length (columns N str stock))%nat.
Proof. apply y_idx_in_bounds; reflexivity. Defined.

(** Witness of [clear_then_rerun_reloads]: the rerun carries a
    query. *)
Lemma clear_then_rerun_reloads_witness :
  let fs := [file_2023; file_2024] in
  let q := py "SELECT * FROM sales LIMIT 10;" in
  let rebuilt := load_all N str latin1_database parse engine stage fs [] in
  exists ui,
    run {| uploaded_files := fs; clear_clicked := false;
           run_btn := false; query := q |}
      (clear_database N str
         {| db_conn := Some [(py "stock", stock)];
            uploaded_files_list := Some [py "stock.csv"] |})
    = ({| db_conn :=
            Some (fst (run_query N str (no_such_table_engine N str)
                         (plain_present N str) false q rebuilt));
          uploaded_files_list := Some (snd (fst (loop fs ([], [], [])))) |},
       (ui ++ schema_view N str lenient_pragma rebuilt)
       ++ snd (run_query N str (no_such_table_engine N str)
                 (plain_present N str) false q rebuilt)).
Proof.
  cbv zeta; apply clear_then_rerun_reloads.
  cbn [map name file_2023 file_2024]; nodup.
Defined.

(** Witness of [script_session]. *)
Lemma script_session_witness :
  let inp := {| uploaded_files := [file_2023; file_2024];
                clear_clicked := false; run_btn := true;
                query := py "SELECT * FROM nonexistent" |} in
  NoDup (files_list N str (fst (run inp (new_session N str))))
  /\ uploaded_files_list N str (fst (run inp (new_session N str))) <> None
  /\ (db_conn N str (fst (run inp (new_session N str))) = None
      <-> clear_clicked inp = true).
Proof. cbv zeta; apply script_session; constructor. Defined.

End Runs.
